(** * The bug reducer of [utils/bug_reducer]: a shallow embedding

    The Python sources embedded here are
      - [bug_reducer/subprocess_utils.py]  ([call_fingerprint]),
      - [bug_reducer/swift_tools.py]       ([br_call] and the tool invokers),
      - [bug_reducer/func_bug_reducer.py]  ([ReduceMiscompilingFunctions]
        and the driver [invoke_function_bug_reducer]).

    Python code that prints, launches processes, writes files and raises
    exceptions is written in a state-and-exception monad [M] over a
    [World] that holds the file system and the trace of observable
    events.  What the Python standard library and the operating system
    provide (digests, process execution, path normalisation) is gathered
    in the class [Platform]. *)

From Stdlib Require Import String Ascii List ZArith Lia Bool Arith.
Import ListNotations.
Local Open Scope string_scope.

(** ** Python values and the world *)

(** The exceptions the embedded code can raise. *)
Inductive exn : Type :=
| RuntimeError (msg : string)
| NameError (name : string)
| TypeError (msg : string)
| AssertionError
| OSError (args : list string)
| CalledProcessError (returncode : Z) (cmd : list string).

Inductive res (A : Type) : Type :=
| Ok (a : A)
| Raise (e : exn).
Arguments Ok {A} a.
Arguments Raise {A} e.

(** What a finished child process leaves behind:
    [p.communicate()] and [p.wait()]. *)
Record ProcOut : Type := mkProcOut {
  proc_exit : Z;
  proc_stdout : string;
  proc_stderr : string
}.

(** The dict [{'exit_code': ..., 'fingerprint': ...}]. *)
Record RunResult : Type := mkRunResult {
  exit_code : Z;
  fingerprint : string
}.

(** Files are a list of (path, content), most recent binding first. *)
Definition FS : Type := list (string * string).

Inductive event : Type :=
| EvPrint (line : string)
| EvSpawn (args : list string)
| EvWrite (path content : string).

Record World : Type := mkWorld {
  fs : FS;
  events : list event
}.

(** ** The host platform *)

Class Platform : Type := {
  (** [hashlib.sha256(data).hexdigest()] *)
  sha256_hexdigest : string -> string;
  (** [md5.new(data).hexdigest()] *)
  md5_hexdigest : string -> string;
  (** Running a command to completion on a file system; [None] when the
      process cannot be launched. *)
  popen : list string -> FS -> option (ProcOut * FS);
  (** [os.path.abspath], [os.path.basename], [os.path.splitext] *)
  abspath : string -> string;
  basename : string -> string;
  splitext : string -> string * string;
  (** [str(d)] of a result dict, as printed by [print result] *)
  repr_dict : RunResult -> string
}.

(** ** The monad *)

Definition M (A : Type) : Type := World -> res A * World.

Definition ret {A} (a : A) : M A := fun w => (Ok a, w).

Definition bind {A B} (m : M A) (k : A -> M B) : M B :=
  fun w =>
    match m w with
    | (Ok a, w') => k a w'
    | (Raise e, w') => (Raise e, w')
    end.

Definition raise {A} (e : exn) : M A := fun w => (Raise e, w).

Declare Scope py_scope.
Delimit Scope py_scope with py.
Notation "x <- c1 ;; c2" := (bind c1 (fun x => c2))
  (at level 61, c1 at next level, right associativity) : py_scope.
Notation "c1 ;; c2" := (bind c1 (fun _ => c2))
  (at level 61, right associativity) : py_scope.
Local Open Scope py_scope.

Definition emit (e : event) : M unit :=
  fun w => (Ok tt, {| fs := fs w; events := (events w ++ [e])%list |}).

(** The [print] statement / function with one string argument. *)
Definition print (line : string) : M unit := emit (EvPrint line).

(** [if c: body] for a body executed for its effects. *)
Definition when (c : bool) (body : M unit) : M unit :=
  if c then body else ret tt.

(** [os.access(f, os.F_OK)] *)
Definition os_access (f : string) : M bool :=
  fun w => (Ok (existsb (fun pc => String.eqb (fst pc) f) (fs w)), w).

(** [with open(path, 'w') as file: ...] once the body has written
    [content].  Directories are not modelled: the file can always be
    opened (the invokers' constructors run [mkdir -p] on the work
    directory). *)
Definition write_file (path content : string) : M unit :=
  fun w => (Ok tt, {| fs := (path, content) :: fs w;
                      events := (events w ++ [EvWrite path content])%list |}).

(** [' '.join(l)] *)
Definition join_spaces (l : list string) : string := String.concat " " l.

(** [os.path.join(a, b)] on a POSIX host. *)
Definition starts_with_slash (s : string) : bool :=
  match s with
  | String c _ => Ascii.eqb c "/"%char
  | EmptyString => false
  end.

Fixpoint ends_with_slash (s : string) : bool :=
  match s with
  | EmptyString => false
  | String c EmptyString => Ascii.eqb c "/"%char
  | String _ rest => ends_with_slash rest
  end.

Definition os_path_join (a b : string) : string :=
  if starts_with_slash b then b
  else if (String.eqb a "" || ends_with_slash a)%bool then a ++ b
  else a ++ "/" ++ b.

(** A hash object is the sequence of bytes fed to it so far: repeated
    [update] calls are the same as one call on the concatenation. *)
Definition hashobj : Type := string.
Definition hash_new : hashobj := "".
Definition hash_update (h : hashobj) (data : string) : hashobj := h ++ data.

(** ** list_reducer: the outcome tags and the minimization engine *)

(** Modelled from the spec: the three outcome tags that
    [func_bug_reducer.py] imports from [list_reducer], which part of a
    tested partition, if any, alone still reproduces the anomaly. *)
Inductive TestResult : Type :=
| TESTRESULT_KEEPPREFIX
| TESTRESULT_KEEPSUFFIX
| TESTRESULT_NOFAILURE.

Section Engine.
Context {A : Type}.

(** The value an oracle returns: the tag with the two lists. *)
Definition Outcome : Type := (TestResult * list A * list A)%type.

Variable oracle : list A -> list A -> M Outcome.

(** Modelled from the spec: the state owned by one reduction run,
    "current target list, current granularity, invocation count". *)
Record ReductionState : Type := mkState {
  cur_target : list A;
  cur_granularity : nat;
  invocation_count : nat
}.

(** Modelled from the spec: step 1, the partition of the target into [k]
    contiguous chunks.  Chunk [i] spans the positions from
    [boundary n k i] up to [boundary n k (i+1)]. *)
Definition boundary (n k i : nat) : nat := i * n / k.

Definition chunk (k i : nat) (l : list A) : list A :=
  let lo := boundary (length l) k i in
  let hi := boundary (length l) k (S i) in
  firstn (hi - lo) (skipn lo l).

Definition complement (k i : nat) (l : list A) : list A :=
  let lo := boundary (length l) k i in
  let hi := boundary (length l) k (S i) in
  (firstn lo l ++ skipn hi l)%list.

(** One oracle invocation of step 2: the two lists handed to the oracle
    and whether the chunk is the one passed as prefix. *)
Record Probe : Type := mkProbe {
  chunk_is_prefix : bool;
  probe_prefix : list A;
  probe_suffix : list A
}.

(** Modelled from the spec: step 2, "for each chunk (and, if not found,
    each chunk's complement), invoke oracle by treating that chunk as the
    candidate prefix against the rest as suffix (or vice versa)". *)
Definition probes (k : nat) (l : list A) : list Probe :=
  (map (fun i => mkProbe true (chunk k i l) (complement k i l)) (seq 0 k)
   ++ map (fun i => mkProbe false (complement k i l) (chunk k i l)) (seq 0 k))%list.

Inductive ScanResult : Type :=
| Hit (is_chunk : bool) (part : list A)
| Miss
| Fatal (e : exn).

(** Modelled from the spec: the oracle is invoked on the probes in turn
    "until one reports KeepPrefix or KeepSuffix"; a fatal error of the
    oracle stops the scan at once.  [calls] counts the invocations. *)
Fixpoint scan (ps : list Probe) (calls : nat) (w : World)
  : ScanResult * nat * World :=
  match ps with
  | [] => (Miss, calls, w)
  | p :: ps' =>
      match oracle (probe_prefix p) (probe_suffix p) w with
      | (Raise e, w') => (Fatal e, S calls, w')
      | (Ok (TESTRESULT_KEEPPREFIX, _, _), w') =>
          (Hit (chunk_is_prefix p) (probe_prefix p), S calls, w')
      | (Ok (TESTRESULT_KEEPSUFFIX, _, _), w') =>
          (Hit (negb (chunk_is_prefix p)) (probe_suffix p), S calls, w')
      | (Ok (TESTRESULT_NOFAILURE, _, _), w') => scan ps' (S calls) w'
      end
  end.

Inductive Status : Type :=
| Converged
| Aborted (e : exn)
| OutOfFuel.

(** The result of a run: how it ended, the final state, and every target
    list the engine held, oldest first. *)
Record Run : Type := mkRun {
  status : Status;
  final : ReductionState;
  history : list (list A)
}.

Definition held (t : list A) (rw : Run * World) : Run * World :=
  (mkRun (status (fst rw)) (final (fst rw)) (t :: history (fst rw)), snd rw).

(** Modelled from the spec: the ddmin loop, steps 1 to 5.  A chunk that
    reproduces becomes the target and the granularity is reset to 2; a
    complement that reproduces becomes the target and the granularity is
    reduced by one (never below 2); when nothing reproduces the
    granularity is doubled, bounded by the length of the target, and the
    loop ends once it cannot grow.  A target of fewer than two elements
    cannot be partitioned.  [fuel] bounds the number of rounds. *)
Fixpoint reduce_loop (fuel : nat) (st : ReductionState) (w : World)
  : Run * World :=
  match fuel with
  | 0 => (mkRun OutOfFuel st [cur_target st], w)
  | S fuel' =>
      let n := length (cur_target st) in
      if (n <? 2)%nat then (mkRun Converged st [cur_target st], w)
      else
        let k := Nat.min (cur_granularity st) n in
        match scan (probes k (cur_target st)) (invocation_count st) w with
        | (Hit is_chunk part, calls, w') =>
            let g := if is_chunk then 2
                     else Nat.max (cur_granularity st - 1) 2 in
            held (cur_target st) (reduce_loop fuel' (mkState part g calls) w')
        | (Miss, calls, w') =>
            if (cur_granularity st <? n)%nat then
              held (cur_target st)
                (reduce_loop fuel'
                   (mkState (cur_target st) (Nat.min (2 * cur_granularity st) n) calls)
                   w')
            else
              (mkRun Converged
                 (mkState (cur_target st) (cur_granularity st) calls)
                 [cur_target st], w')
        | (Fatal e, calls, w') =>
            (mkRun (Aborted e)
               (mkState (cur_target st) (cur_granularity st) calls)
               [cur_target st], w')
        end
  end.

(** Rounds that [reduce_loop] can need on a target of length [n]. *)
Definition rounds_bound (n : nat) : nat := n * (n + 1) + n + 1.

(** Modelled from the spec: [reduce(list, oracle)], "maintain target =
    input list and granularity starting at 2". *)
Definition reduce (l : list A) (w : World) : Run * World :=
  reduce_loop (rounds_bound (length l)) (mkState l 2 0) w.

End Engine.

Section Program.
Context {platform : Platform}.

(** ** subprocess_utils.py *)

(** [subprocess.Popen(args, ...)] followed by [communicate()] and
    [wait()]. *)
Definition Popen_communicate (args : list string) : M ProcOut :=
  fun w =>
    match popen args (fs w) with
    | Some (p, fs') =>
        (Ok p, {| fs := fs'; events := (events w ++ [EvSpawn args])%list |})
    | None => (Raise (OSError args), w)
    end.

Definition call_fingerprint (args : list string)
    (echo_stderr echo_stdout : bool) : M RunResult :=
  p <- Popen_communicate args ;;
  let stdoutdata := proc_stdout p in
  let stderrdata := proc_stderr p in
  let exit_code := proc_exit p in
  let h := hash_new in
  let h := if (exit_code =? 0)%Z then hash_update h "0"
           else hash_update h "1" in
  let h := hash_update h stdoutdata in
  let h := hash_update h stderrdata in
  let fingerprint := sha256_hexdigest h in
  when echo_stderr (print "STDERR:" ;; print stderrdata) ;;
  when echo_stdout (print "STDOUT:" ;; print stdoutdata) ;;
  ret {| exit_code := exit_code; fingerprint := fingerprint |}.

(** ** swift_tools.py *)

Definition DRY_RUN : bool := false.
Definition SQUELCH_STDERR : bool := false.
Definition ECHO_CALLS : bool := true.

Definition br_call (args : list string) (dry_run echo : bool) : M RunResult :=
  when (dry_run || echo) (print ("BRCALL: " ++ join_spaces args)) ;;
  if dry_run then ret {| exit_code := 0; fingerprint := "" |}
  else call_fingerprint args true true.

(** [br_call(args)] with the default arguments, which Python binds when
    the function is defined. *)
Definition br_call_default (args : list string) : M RunResult :=
  br_call args DRY_RUN ECHO_CALLS.

Definition sanity_check_file_exists (f : string) : M unit :=
  ok <- os_access f ;;
  if negb ok then raise (RuntimeError ("Error! Could not find file: " ++ f))
  else ret tt.

(** *** class SwiftTools *)

Record SwiftTools : Type := mkSwiftTools {
  swift_build_dir : string
}.

Definition _get_tool (self : SwiftTools) (name : string) : M string :=
  let path := os_path_join (os_path_join (swift_build_dir self) "bin") name in
  ok <- os_access path ;;
  if negb ok then
    raise (RuntimeError ("Error! " ++ name ++ " does not exist at: " ++ path))
  else ret path.

Definition sil_nm (self : SwiftTools) : M string := _get_tool self "sil-nm".
Definition swiftc (self : SwiftTools) : M string := _get_tool self "swiftc".
Definition sil_opt (self : SwiftTools) : M string := _get_tool self "sil-opt".
Definition sil_llvm_gen (self : SwiftTools) : M string :=
  _get_tool self "sil-llvm-gen".
Definition sil_func_extractor (self : SwiftTools) : M string :=
  _get_tool self "sil-func-extractor".
Definition sil_passpipeline_dumper (self : SwiftTools) : M string :=
  _get_tool self "sil-passpipeline-dumper".

Definition maybe_abspath (x : option string) : option string :=
  match x with
  | None => None
  | Some p => Some (abspath p)
  end.

(** *** The parsed command line ([add_parser_arguments]) *)

Record Args : Type := mkArgs {
  args_swift_build_dir : string;
  args_input_file : string;
  args_module_cache : option string;
  args_sdk : option string;
  args_target : option string;
  args_resource_dir : option string;
  (** [--work-dir] has the default ['bug_reducer'], so it is never [None] *)
  args_work_dir : string;
  args_module_name : option string;
  (** [action='append']: [None] when the flag was never given *)
  args_pass_list : option (list string);
  args_extra_args : option (list string)
}.

(** *** class SILToolInvokerConfig *)

Record SILToolInvokerConfig : Type := mkConfig {
  module_cache : option string;
  sdk : option string;
  target : option string;
  resource_dir : option string;
  work_dir : string;
  module_name : option string
}.

Definition SILToolInvokerConfig_init (args : Args) : SILToolInvokerConfig :=
  {| module_cache := args_module_cache args;
     sdk := args_sdk args;
     target := args_target args;
     resource_dir := maybe_abspath (args_resource_dir args);
     work_dir := abspath (args_work_dir args);
     module_name := args_module_name args |}.

(** *** class SILToolInvoker and its subclasses

    One record holds the attributes of an invoker object; [inv_class]
    is the object's class, on which the property [tool] dispatches. *)

Inductive invoker_class : Type :=
| SILOptInvoker
| SILFuncExtractorInvoker
| SILNMInvoker
| SwiftLLVMGenInvoker.

Record Invoker : Type := mkInvoker {
  inv_class : invoker_class;
  config : SILToolInvokerConfig;
  extra_args : list string;
  tools : SwiftTools;
  base_input_file_stem : string;
  original_base_input_file_ext : string;
  base_input_file_ext : string;
  input_file : string
}.

Definition tool (self : Invoker) : M string :=
  match inv_class self with
  | SILOptInvoker => sil_opt (tools self)
  | SILFuncExtractorInvoker => sil_func_extractor (tools self)
  | SILNMInvoker => sil_nm (tools self)
  | SwiftLLVMGenInvoker => sil_llvm_gen (tools self)
  end.

(** [x.extend(self.convert_arg_to_cmdline(argname, v))] guarded by
    [v is not None]; the converted argument is ["%s=%s" % (argname, v)]. *)
Definition convert_arg_to_cmdline (argname argvalue : string) : list string :=
  [argname ++ "=" ++ argvalue].

Definition extend_if_set (x : list string) (argname : string)
    (v : option string) : list string :=
  match v with
  | Some argvalue => (x ++ convert_arg_to_cmdline argname argvalue)%list
  | None => x
  end.

Definition base_args (self : Invoker) (emit_sib emit_obj : bool)
  : M (list string) :=
  t <- tool self ;;
  let x := [t] in
  let x := extend_if_set x "-sdk" (sdk (config self)) in
  let x := extend_if_set x "-target" (target (config self)) in
  let x := extend_if_set x "-resource-dir" (resource_dir (config self)) in
  let x := extend_if_set x "-module-cache-path" (module_cache (config self)) in
  let x := extend_if_set x "-module-name" (module_name (config self)) in
  let x := if emit_sib then (x ++ ["-emit-sib"])%list else x in
  ret x.

(** [subprocess.check_call(cmd)] *)
Definition check_call (cmd : list string) : M unit :=
  p <- Popen_communicate cmd ;;
  if (proc_exit p =? 0)%Z then ret tt
  else raise (CalledProcessError (proc_exit p) cmd).

(** [subprocess.check_output(cmd)] *)
Definition check_output (cmd : list string) : M string :=
  p <- Popen_communicate cmd ;;
  if (proc_exit p =? 0)%Z then ret (proc_stdout p)
  else raise (CalledProcessError (proc_exit p) cmd).

(** [x or []] *)
Definition or_empty (x : option (list string)) : list string :=
  match x with
  | Some l => l
  | None => []
  end.

(** [SILConstantInputToolInvoker.__init__], for an object of class [cls]. *)
Definition SILConstantInputToolInvoker_init (cls : invoker_class)
    (config : SILToolInvokerConfig) (tools : SwiftTools)
    (initial_input_file : string) (extra_args : option (list string))
  : M Invoker :=
  check_call ["mkdir"; "-p"; work_dir config] ;;
  let base_input_file := basename initial_input_file in
  let '(base, ext) := splitext base_input_file in
  sanity_check_file_exists initial_input_file ;;
  ret {| inv_class := cls;
         config := config;
         extra_args := or_empty extra_args;
         tools := tools;
         base_input_file_stem := base;
         original_base_input_file_ext := ext;
         base_input_file_ext := ".sib";
         input_file := initial_input_file |}.

Definition get_suffixed_filename (self : Invoker) (suffix : string)
    (ext : option string) : string :=
  let ext := match ext with
             | None => base_input_file_ext self
             | Some e => e
             end in
  let basename := base_input_file_stem self ++ "_" ++ suffix in
  let basename := basename ++ ext in
  os_path_join (work_dir (config self)) basename.

(** The assignment [self.input_file = f]. *)
Definition set_input_file (self : Invoker) (f : string) : Invoker :=
  {| inv_class := inv_class self;
     config := config self;
     extra_args := extra_args self;
     tools := tools self;
     base_input_file_stem := base_input_file_stem self;
     original_base_input_file_ext := original_base_input_file_ext self;
     base_input_file_ext := base_input_file_ext self;
     input_file := f |}.

(** [base_args.extend(passes)]: a [None] pass list is not iterable. *)
Definition extend_passes (base : list string) (passes : option (list string))
  : M (list string) :=
  match passes with
  | Some ps => ret (base ++ ps)%list
  | None => raise (TypeError "'NoneType' object is not iterable")
  end.

(** *** class SILOptInvoker *)

Definition SILOptInvoker_cmdline (self : Invoker) (input_file : string)
    (passes : option (list string)) (emit_sib : bool) (output_file : string)
  : M (list string) :=
  base_args <- base_args self emit_sib false ;;
  sanity_check_file_exists input_file ;;
  let base_args := (base_args ++ [input_file; "-o"; output_file])%list in
  let base_args := (base_args ++ extra_args self)%list in
  extend_passes base_args passes.

Definition SILOptInvoker_invoke (self : Invoker) (input_file : string)
    (passes : option (list string)) (emit_sib : bool)
    (output_filename : string) : M RunResult :=
  cmdline <- SILOptInvoker_cmdline self input_file passes emit_sib
               output_filename ;;
  br_call_default cmdline.

Definition SILOptInvoker_init (config : SILToolInvokerConfig)
    (tools : SwiftTools) (input_file0 : string)
    (extra_args : option (list string)) : M Invoker :=
  self <- SILConstantInputToolInvoker_init SILOptInvoker config tools
            input_file0 extra_args ;;
  let self_input_file := get_suffixed_filename self "initial" None in
  let self := set_input_file self self_input_file in
  _ <- SILOptInvoker_invoke self input_file0 (Some []) true
         (input_file self) ;;
  ret self.

Definition SILOptInvoker_invoke_with_passlist (self : Invoker)
    (passes : option (list string)) (output_filename : string) : M RunResult :=
  SILOptInvoker_invoke self (input_file self) passes true output_filename.

Definition SILOptInvoker_cmdline_with_passlist (self : Invoker)
    (passes : option (list string)) : M (list string) :=
  SILOptInvoker_cmdline self (input_file self) passes false "-".

(** *** class SILFuncExtractorInvoker *)

Definition SILFuncExtractorInvoker_init (config : SILToolInvokerConfig)
    (tools : SwiftTools) (input_file : string) : M Invoker :=
  SILConstantInputToolInvoker_init SILFuncExtractorInvoker config tools
    input_file (Some []).

Definition SILFuncExtractorInvoker_cmdline (self : Invoker)
    (input_file funclist_path : string) (emit_sib : bool)
    (output_file : string) (invert : bool) : M (list string) :=
  sanity_check_file_exists input_file ;;
  sanity_check_file_exists funclist_path ;;
  base_args <- base_args self emit_sib false ;;
  let base_args :=
    (base_args ++ [input_file; "-o"; output_file;
                   ("-func-file=" ++ funclist_path)%string])%list in
  let base_args := if invert then (base_args ++ ["-invert"])%list
                   else base_args in
  ret base_args.

Definition SILFuncExtractorInvoker_invoke (self : Invoker)
    (input_file funclist_path output_filename : string) (invert : bool)
  : M RunResult :=
  cmdline <- SILFuncExtractorInvoker_cmdline self input_file funclist_path
               true output_filename invert ;;
  br_call_default cmdline.

Definition SILFuncExtractorInvoker_invoke_with_functions (self : Invoker)
    (funclist_path output_filename : string) (invert : bool) : M RunResult :=
  SILFuncExtractorInvoker_invoke self (input_file self) funclist_path
    output_filename invert.

(** *** class SILNMInvoker *)

(** A [SILNMInvoker] object has only [config], [extra_args] and [tools];
    the attributes of the other classes are left empty. *)
Definition SILNMInvoker_init (config : SILToolInvokerConfig)
    (tools : SwiftTools) : Invoker :=
  {| inv_class := SILNMInvoker;
     config := config;
     extra_args := or_empty None;
     tools := tools;
     base_input_file_stem := "";
     original_base_input_file_ext := "";
     base_input_file_ext := "";
     input_file := "" |}.

(** [s.split(sep)] for a one-character separator. *)
Fixpoint split_on (sep : ascii) (s : string) : list string :=
  match s with
  | EmptyString => [""]
  | String c rest =>
      if Ascii.eqb c sep then "" :: split_on sep rest
      else match split_on sep rest with
           | [] => [String c ""]
           | x :: xs => String c x :: xs
           end
  end.

Definition newline : ascii := ascii_of_nat 10.

(** [t = tuple(l.split(" ")); assert(len(t) == 2); yield t] for each
    line. *)
Fixpoint symbol_tuples (lines : list string) : M (list (string * string)) :=
  match lines with
  | [] => ret []
  | l :: rest =>
      match split_on " "%char l with
      | [kind; name] =>
          ts <- symbol_tuples rest ;;
          ret ((kind, name) :: ts)
      | _ => raise AssertionError
      end
  end.

Definition get_symbols (self : Invoker) (input_file : string)
  : M (list (string * string)) :=
  sanity_check_file_exists input_file ;;
  cmdline <- base_args self false false ;;
  let cmdline := (cmdline ++ [input_file])%list in
  output <- check_output cmdline ;;
  symbol_tuples (removelast (split_on newline output)).

(** *** class SwiftLLVMGenInvoker *)

Definition SwiftLLVMGenInvoker_init (config : SILToolInvokerConfig)
    (tools : SwiftTools) (input_file : string)
    (extra_args : option (list string)) : M Invoker :=
  SILConstantInputToolInvoker_init SwiftLLVMGenInvoker config tools
    input_file extra_args.

Definition SwiftLLVMGenInvoker_cmdline (self : Invoker) (input_file : string)
    (output_file : option string) : M (list string) :=
  base_args <- base_args self false true ;;
  sanity_check_file_exists input_file ;;
  let base_args := (base_args ++ [input_file])%list in
  let base_args := match output_file with
                   | Some f => (base_args ++ ["-o"; f])%list
                   | None => base_args
                   end in
  let base_args := (base_args ++ ["-output-kind=object"])%list in
  let base_args := (base_args ++ extra_args self)%list in
  ret base_args.

Definition SwiftLLVMGenInvoker_invoke_ (self : Invoker)
    (input_file output_filename : string) : M RunResult :=
  cmdline <- SwiftLLVMGenInvoker_cmdline self input_file
               (Some output_filename) ;;
  br_call_default cmdline.

Definition SwiftLLVMGenInvoker_invoke (self : Invoker)
    (output_filename : string) : M RunResult :=
  SwiftLLVMGenInvoker_invoke_ self (input_file self) output_filename.

(** *** class SwiftOptCompileInvoker *)

Record SwiftOptCompileInvoker : Type := mkSwiftOptCompileInvoker {
  soc_config : SILToolInvokerConfig;
  soc_tools : SwiftTools;
  soc_extra_args : option (list string);
  run_script : string;
  sil_opt_invoker : Invoker
}.

Definition SwiftOptCompileInvoker_init (config : SILToolInvokerConfig)
    (tools : SwiftTools) (input_file : string)
    (extra_args : option (list string)) (run_script : string)
  : M SwiftOptCompileInvoker :=
  inv <- SILOptInvoker_init config tools input_file extra_args ;;
  ret {| soc_config := config;
         soc_tools := tools;
         soc_extra_args := extra_args;
         run_script := run_script;
         sil_opt_invoker := inv |}.

Definition SwiftOptCompileInvoker_invoke_with_passlist
    (self : SwiftOptCompileInvoker) (passes : option (list string))
    (output_sib_filename output_obj_filename : string) : M RunResult :=
  result <- SILOptInvoker_invoke_with_passlist (sil_opt_invoker self) passes
              output_sib_filename ;;
  if negb (exit_code result =? 0)%Z then
    raise (RuntimeError "Optimizer Compile Time Crasher?!")
  else
    gen <- SwiftLLVMGenInvoker_init (soc_config self) (soc_tools self)
             output_sib_filename (soc_extra_args self) ;;
    result <- SwiftLLVMGenInvoker_invoke gen output_obj_filename ;;
    print (repr_dict result) ;;
    if negb (exit_code result =? 0)%Z then
      raise (RuntimeError "Swift LLVM Gen Compile Time Crasher?!")
    else br_call_default [run_script self; output_obj_filename].

(** ** func_bug_reducer.py *)

(** The [tester] object handed to the reducer: it is called on the two
    extracted files and their stems, and the driver reads its
    [cmdline_with_passlist] method and [result] attribute.  Its class is
    not defined in the module, so the object is a parameter. *)
Record Tester : Type := mkTester {
  tester_call : string -> string -> string -> string -> M bool;
  tester_cmdline_with_passlist : option (list string) -> M (list string);
  tester_result : M string
}.

(** *** class ReduceMiscompilingFunctions *)

Record ReduceMiscompilingFunctions : Type := mkReducer {
  target_list : list string;
  silextract : Invoker;
  tester : Tester
}.

(** [__init__]; [ListReducer.__init__] stores the list as the target. *)
Definition ReduceMiscompilingFunctions_init (functions : list string)
    (silextract : Invoker) (tester : Tester) : ReduceMiscompilingFunctions :=
  {| target_list := functions; silextract := silextract; tester := tester |}.

Definition get_output_filename_stems (funclist_hash : string)
  : string * string :=
  let filename_stem := funclist_hash in
  (filename_stem, filename_stem ++ "_invert").

Definition get_funclist_hash (funcs : list string) : string :=
  let m := hash_new in
  let m := fold_left hash_update funcs m in
  md5_hexdigest m.

(** What the loop [for f in funcs: funclist_file.write(f + '\n')] leaves
    in the file. *)
Definition funclist_file_content (funcs : list string) : string :=
  fold_left (fun written f => written ++ (f ++ String newline ""))
    funcs "".

Definition _test_funclist (self : ReduceMiscompilingFunctions)
    (funcs : list string) : M bool :=
  let funclist_hash := get_funclist_hash funcs in
  let funclist_path :=
    os_path_join (work_dir (config (silextract self)))
      ("func_list_" ++ funclist_hash) in
  write_file funclist_path (funclist_file_content funcs) ;;
  print ("Checking to see if the program is misoptimized with func list: "
         ++ funclist_path) ;;
  let '(outfile_stem, outfile_invert_stem) :=
    get_output_filename_stems funclist_hash in
  let outfile := get_suffixed_filename (silextract self) outfile_stem None in
  let outfile_invert :=
    get_suffixed_filename (silextract self) outfile_invert_stem None in
  _ <- SILFuncExtractorInvoker_invoke_with_functions (silextract self)
         funclist_path outfile false ;;
  _ <- SILFuncExtractorInvoker_invoke_with_functions (silextract self)
         funclist_path outfile_invert true ;;
  tester_call (tester self) outfile outfile_stem outfile_invert
    outfile_invert_stem.

(** [c and m] used as a condition: [m] runs only when [c] holds. *)
Definition and_then (c : bool) (m : M bool) : M bool :=
  if c then m else ret false.

Definition run_test (self : ReduceMiscompilingFunctions)
    (prefix suffix : list string) : M (@Outcome string) :=
  keep_suffix <- and_then (0 <? length suffix)%nat (_test_funclist self suffix) ;;
  if keep_suffix then ret (TESTRESULT_KEEPSUFFIX, prefix, suffix)
  else
    keep_prefix <- and_then (0 <? length prefix)%nat
                     (_test_funclist self prefix) ;;
    if keep_prefix then ret (TESTRESULT_KEEPPREFIX, prefix, suffix)
    else ret (TESTRESULT_NOFAILURE, prefix, suffix).

(** Modelled from the spec: [reduce_list], inherited from
    [list_reducer.ListReducer], runs the minimization engine with
    [run_test] as the oracle, leaves the result in [target_list] and
    reports whether the list could be reduced; a fatal error of the
    oracle propagates. *)
Definition reduce_list (self : ReduceMiscompilingFunctions)
  : M (bool * ReduceMiscompilingFunctions) :=
  fun w =>
    let '(run, w') := reduce (run_test self) (target_list self) w in
    match status run with
    | Aborted e => (Raise e, w')
    | _ =>
        let t := cur_target (final run) in
        (Ok ((length t <? length (target_list self))%nat,
             {| target_list := t;
                silextract := silextract self;
                tester := tester self |}), w')
    end.

Definition function_bug_reducer (input_file : string) (nm : Invoker)
    (sil_opt_invoker sil_extract_invoker : Invoker)
    (pass_list : option (list string)) (tester : Tester) : M unit :=
  symbols <- get_symbols nm input_file ;;
  let functions :=
    map snd (filter (fun s => String.eqb (fst s) "F") symbols) in
  print "Base case crashes! Trying to reduce *.sib file" ;;
  let r := ReduceMiscompilingFunctions_init functions sil_extract_invoker
             tester in
  reduced <- reduce_list r ;;
  let r := snd reduced in
  when (negb (fst reduced)) (print "Failed to find miscompiling pass list!") ;;
  cmdline <- tester_cmdline_with_passlist tester pass_list ;;
  print "*** Successfully Reduced file!" ;;
  result <- tester_result tester ;;
  print ("*** Final File: " ++ result) ;;
  print ("*** Final Functions: " ++ join_spaces (target_list r)) ;;
  print ("*** Repro command line: " ++ join_spaces cmdline).

(** The two names that [invoke_function_bug_reducer] reads from the
    module's globals without the module defining them; a name that is
    not bound raises [NameError]. *)
Record ModuleGlobals : Type := mkGlobals {
  global_OptimizerTester :
    option (Invoker -> option (list string) -> M Tester);
  global_pass_list : option (option (list string))
}.

Definition load_global {T : Type} (name : string) (binding : option T)
  : M T :=
  match binding with
  | Some v => ret v
  | None => raise (NameError name)
  end.

(** [' '.join(l)] for a list that may be [None]. *)
Definition join_spaces_opt (l : option (list string)) : M string :=
  match l with
  | Some ps => ret (join_spaces ps)
  | None => raise (TypeError "can only join an iterable")
  end.

Definition invoke_function_bug_reducer (globals : ModuleGlobals)
    (args : Args) : M unit :=
  let tools := {| swift_build_dir := args_swift_build_dir args |} in
  let config := SILToolInvokerConfig_init args in
  let nm := SILNMInvoker_init config tools in
  let input_file := args_input_file args in
  let extra_args := args_extra_args args in
  sil_opt_invoker <- SILOptInvoker_init config tools input_file extra_args ;;
  let filename := get_suffixed_filename sil_opt_invoker "base_case" None in
  result <- SILOptInvoker_invoke_with_passlist sil_opt_invoker
              (args_pass_list args) filename ;;
  if (exit_code result =? 0)%Z then
    passes <- join_spaces_opt (args_pass_list args) ;;
    print ("Success with PassList: " ++ passes)
  else
    sil_extract_invoker <- SILFuncExtractorInvoker_init config tools
                             input_file ;;
    make_tester <- load_global "OptimizerTester"
                     (global_OptimizerTester globals) ;;
    pass_list <- load_global "pass_list" (global_pass_list globals) ;;
    tester <- make_tester sil_opt_invoker pass_list ;;
    function_bug_reducer input_file nm sil_opt_invoker sil_extract_invoker
      (args_pass_list args) tester.

End Program.

(** ** Observations on traces *)

(** The command lines of the processes launched in a trace. *)
Fixpoint spawned (evs : list event) : list (list string) :=
  match evs with
  | [] => []
  | EvSpawn args :: rest => args :: spawned rest
  | _ :: rest => spawned rest
  end.

(** The files written by the program itself in a trace. *)
Fixpoint written (evs : list event) : list (string * string) :=
  match evs with
  | [] => []
  | EvWrite path content :: rest => (path, content) :: written rest
  | _ :: rest => written rest
  end.

(** A digest without collisions: the idealisation under which a
    fingerprint identifies the bytes it was computed from. *)
Definition collision_free (digest : string -> string) : Prop :=
  forall x y, digest x = digest y -> x = y.

(** The bytes that [call_fingerprint] feeds to the digest, in order. *)
Definition digest_input (p : ProcOut) : string :=
  (if (proc_exit p =? 0)%Z then "0" else "1")
  ++ proc_stdout p ++ proc_stderr p.

(** The files of one tested list: the description of the list, and the
    two files that [_test_funclist] asks the extractor for. *)
Section ScratchFiles.
Context {platform : Platform}.

Definition funclist_path (self : ReduceMiscompilingFunctions)
    (funcs : list string) : string :=
  os_path_join (work_dir (config (silextract self)))
    ("func_list_" ++ get_funclist_hash funcs).

Definition outfile_of (self : ReduceMiscompilingFunctions)
    (funcs : list string) : string :=
  get_suffixed_filename (silextract self)
    (fst (get_output_filename_stems (get_funclist_hash funcs))) None.

Definition outfile_invert_of (self : ReduceMiscompilingFunctions)
    (funcs : list string) : string :=
  get_suffixed_filename (silextract self)
    (snd (get_output_filename_stems (get_funclist_hash funcs))) None.

(** The two extractor runs and the call of the tester that end
    [_test_funclist]. *)
Definition extract_and_test (self : ReduceMiscompilingFunctions)
    (funcs : list string) : M bool :=
  let h := get_funclist_hash funcs in
  _ <- SILFuncExtractorInvoker_invoke_with_functions (silextract self)
         (funclist_path self funcs) (outfile_of self funcs) false ;;
  _ <- SILFuncExtractorInvoker_invoke_with_functions (silextract self)
         (funclist_path self funcs) (outfile_invert_of self funcs) true ;;
  tester_call (tester self) (outfile_of self funcs) h
    (outfile_invert_of self funcs) (h ++ "_invert").

End ScratchFiles.

(** A computation that writes no file itself. *)
Definition no_write {T : Type} (m : M T) : Prop :=
  forall w, written (events (snd (m w))) = written (events w).

(** ** Observations on runs of the engine *)

Section EngineObservations.
Context {A : Type}.

(** The tag an oracle call ended with, if it did not raise. *)
Definition tag_of (r : res (@Outcome A)) : option TestResult :=
  match r with
  | Ok (tag, _, _) => Some tag
  | Raise _ => None
  end.

(** Anomaly preservation for one run: tested as a whole (against the
    empty suffix), every target list the engine held and the list it
    returns are classified as the input list is. *)
Definition anomaly_preserved (oracle : list A -> list A -> M Outcome)
    (l : list A) (w : World) : Prop :=
  let '(r, w') := reduce oracle l w in
  Forall (fun t => tag_of (fst (oracle t [] w')) = tag_of (fst (oracle l [] w')))
    (cur_target (final r) :: history r).

(** From one held target to the next, the target is kept or gets
    strictly shorter. *)
Fixpoint steps_shrink (h : list (list A)) : Prop :=
  match h with
  | t1 :: ((t2 :: _) as rest) =>
      (t2 = t1 \/ length t2 < length t1) /\ steps_shrink rest
  | _ => True
  end.

(** The bound on the oracle invocations left to a run whose target has
    [n] elements at granularity [g]. *)
Definition calls_bound (n g : nat) : nat :=
  2 * (2 * n * n + (if (g <? n)%nat then 3 * n - g else n)).

(** The rounds left to such a run. *)
Definition rounds_left (n g : nat) : nat := n * (n + 1) + (n - g).

End EngineObservations.

(** ** A small concrete host, for running the embedded code

    Digests are the identity, so a list's hash is the concatenation of
    its elements and can be read back; every tool exits with status 0,
    except that [sil-opt] running the pass [-simplify-cfg] and
    [sil-func-extractor] exit with the given codes; a tool that exits
    with 0 creates the file named after [-o]. *)
Module Demo.

Fixpoint output_of (args : list string) : option string :=
  match args with
  | flag :: ((f :: _) as rest) =>
      if String.eqb flag "-o" then Some f else output_of rest
  | _ => None
  end.

Definition tool_exit (opt_exit extract_exit : Z) (args : list string) : Z :=
  match args with
  | prog :: _ =>
      if String.eqb prog "/build/bin/sil-opt" then
        if existsb (String.eqb "-simplify-cfg") args then opt_exit else 0%Z
      else if String.eqb prog "/build/bin/sil-func-extractor" then extract_exit
      else 0%Z
  | [] => 0%Z
  end.

Definition demo_popen (opt_exit extract_exit : Z) (args : list string)
    (files : FS) : option (ProcOut * FS) :=
  let code := tool_exit opt_exit extract_exit args in
  if (code =? 0)%Z then
    Some (mkProcOut 0 "" "",
          match output_of args with
          | Some f => (f, "") :: files
          | None => files
          end)
  else Some (mkProcOut code "" "", files).

Definition host (opt_exit extract_exit : Z) : Platform :=
  {| sha256_hexdigest := fun data => data;
     md5_hexdigest := fun data => data;
     popen := demo_popen opt_exit extract_exit;
     abspath := fun p => if starts_with_slash p then p else "/cwd/" ++ p;
     basename := fun p => p;
     splitext := fun p => (p, "");
     repr_dict := fun r => fingerprint r |}.

Definition w0 : World :=
  {| fs := [("/build/bin/sil-opt", ""); ("/build/bin/sil-func-extractor", "");
            ("/build/bin/sil-nm", ""); ("main", "")];
     events := [] |}.

Definition demo_config : SILToolInvokerConfig :=
  {| module_cache := None; sdk := None; target := None;
     resource_dir := None; work_dir := "/work"; module_name := None |}.

Definition demo_silextract : Invoker :=
  {| inv_class := SILFuncExtractorInvoker;
     config := demo_config;
     extra_args := [];
     tools := {| swift_build_dir := "/build" |};
     base_input_file_stem := "main";
     original_base_input_file_ext := "";
     base_input_file_ext := ".sib";
     input_file := "main" |}.

(** A tester that decides from the stem of the extracted file, which on
    this host spells out the tested functions. *)
Definition demo_tester (verdict : string -> bool) : Tester :=
  {| tester_call := fun _ outfile_stem _ _ => ret (verdict outfile_stem);
     tester_cmdline_with_passlist := fun _ => ret [];
     tester_result := ret "" |}.

Definition demo_reducer (verdict : string -> bool)
  : ReduceMiscompilingFunctions :=
  {| target_list := []; silextract := demo_silextract;
     tester := demo_tester verdict |}.

(** "The tested list contains C". *)
Fixpoint mentions_C (s : string) : bool :=
  match s with
  | EmptyString => false
  | String c rest => (Ascii.eqb c "C"%char || mentions_C rest)%bool
  end.

Definition demo_args : Args :=
  {| args_swift_build_dir := "/build";
     args_input_file := "main";
     args_module_cache := None;
     args_sdk := None;
     args_target := None;
     args_resource_dir := None;
     args_work_dir := "/work";
     args_module_name := None;
     args_pass_list := Some ["-simplify-cfg"];
     args_extra_args := None |}.

Definition no_globals : ModuleGlobals :=
  {| global_OptimizerTester := None; global_pass_list := None |}.

(** The worlds in which the extractor can be run: its binary and the
    input file are there. *)
Definition has_file (f : string) (w : World) : Prop :=
  existsb (fun pc => String.eqb (fst pc) f) (fs w) = true.

Definition healthy (w : World) : Prop :=
  has_file "main" w /\ has_file "/build/bin/sil-func-extractor" w.

(** What [run_test] answers on this host when the tester reproduces the
    anomaly on the lists whose concatenation satisfies [reproduces]. *)
Definition list_verdict (reproduces : string -> bool)
    (prefix suffix : list string) : option TestResult :=
  if ((0 <? length suffix)%nat && reproduces (String.concat "" suffix))%bool
  then Some TESTRESULT_KEEPSUFFIX
  else if ((0 <? length prefix)%nat
           && reproduces (String.concat "" prefix))%bool
  then Some TESTRESULT_KEEPPREFIX
  else Some TESTRESULT_NOFAILURE.

End Demo.

(** ** More of swift_tools.py *)

Section MoreProgram.
Context {platform : Platform}.

(** [SwiftLLVMGenInvoker.cmdline_with_passlist(passes)] is
    [self._cmdline(self.input_file, passes)]: the pass list takes the
    place of [output_file], and for a value that is not [None] the body
    asserts [isinstance(output_file, str)], which a list fails. *)
Definition SwiftLLVMGenInvoker_cmdline_with_passlist (self : Invoker)
    (passes : option (list string)) : M (list string) :=
  base_args <- base_args self false true ;;
  sanity_check_file_exists (input_file self) ;;
  let base_args := (base_args ++ [input_file self])%list in
  match passes with
  | Some _ => raise AssertionError
  | None =>
      let base_args := (base_args ++ ["-output-kind=object"])%list in
      let base_args := (base_args ++ extra_args self)%list in
      ret base_args
  end.

Definition SwiftOptCompileInvoker_cmdline_with_passlist
    (self : SwiftOptCompileInvoker) (passes : option (list string))
  : M (list string) :=
  SILOptInvoker_cmdline_with_passlist (sil_opt_invoker self) passes.

End MoreProgram.

(** ** Names used in the statements about the tools *)

(** [os.access(f, os.F_OK)] on a file system. *)
Definition accessible (f : string) (files : FS) : bool :=
  existsb (fun pc => String.eqb (fst pc) f) files.

(** The binary each class of invoker runs, and where [_get_tool] looks
    for it. *)
Definition tool_name (cls : invoker_class) : string :=
  match cls with
  | SILOptInvoker => "sil-opt"
  | SILFuncExtractorInvoker => "sil-func-extractor"
  | SILNMInvoker => "sil-nm"
  | SwiftLLVMGenInvoker => "sil-llvm-gen"
  end.

Definition tool_path (self : Invoker) : string :=
  os_path_join (os_path_join (swift_build_dir (tools self)) "bin")
    (tool_name (inv_class self)).

(** The arguments [base_args] derives from the configuration. *)
Definition option_args (c : SILToolInvokerConfig) : list string :=
  extend_if_set
    (extend_if_set
       (extend_if_set
          (extend_if_set
             (extend_if_set [] "-sdk" (sdk c))
             "-target" (target c))
          "-resource-dir" (resource_dir c))
       "-module-cache-path" (module_cache c))
    "-module-name" (module_name c).

(** What a [br_call] that runs a process with outcome [p] adds to the
    trace. *)
Definition br_call_events (echo : bool) (args : list string) (p : ProcOut)
  : list event :=
  ((if echo then [EvPrint ("BRCALL: " ++ join_spaces args)] else [])
   ++ [EvSpawn args; EvPrint "STDERR:"; EvPrint (proc_stderr p);
       EvPrint "STDOUT:"; EvPrint (proc_stdout p)])%list.

Definition add_events (w : World) (files : FS) (evs : list event) : World :=
  {| fs := files; events := (events w ++ evs)%list |}.

(** The character [c] does not occur in [s]. *)
Fixpoint lacks (c : ascii) (s : string) : bool :=
  match s with
  | EmptyString => true
  | String x rest => (negb (Ascii.eqb x c) && lacks c rest)%bool
  end.

(** A symbol listing as [sil-nm] prints it: one line [kind name] per
    symbol. *)
Definition symbol_line (sym : string * string) : string :=
  fst sym ++ " " ++ snd sym.

Fixpoint format_symbols (syms : list (string * string)) : string :=
  match syms with
  | [] => ""
  | sym :: rest => symbol_line sym ++ String newline (format_symbols rest)
  end.

Definition well_formed_symbol (sym : string * string) : Prop :=
  lacks " "%char (fst sym) = true /\ lacks newline (fst sym) = true
  /\ lacks " "%char (snd sym) = true /\ lacks newline (snd sym) = true.

(** The command lines of the two extractor runs of [_test_funclist]. *)
Section ExtractorCommands.
Context {platform : Platform}.

Definition extract_cmd (self : ReduceMiscompilingFunctions)
    (funcs : list string) (invert : bool) : list string :=
  let ex := silextract self in
  (tool_path ex :: option_args (config ex) ++ ["-emit-sib"]
   ++ [input_file ex; "-o";
       if invert then outfile_invert_of self funcs else outfile_of self funcs;
       ("-func-file=" ++ funclist_path self funcs)%string]
   ++ (if invert then ["-invert"] else []))%list.

End ExtractorCommands.

(** The exit code a call returned, if it returned. *)
Definition exit_code_of_res (r : res RunResult) : option Z :=
  match r with
  | Ok result => Some (exit_code result)
  | Raise _ => None
  end.

(** The command lines the invokers build. *)
Definition opt_cmd (self : Invoker) (input_file : string)
    (passes : list string) (emit_sib : bool) (output_file : string)
  : list string :=
  (tool_path self :: option_args (config self)
   ++ (if emit_sib then ["-emit-sib"] else [])
   ++ [input_file; "-o"; output_file] ++ extra_args self ++ passes)%list.

Definition func_extractor_cmd (self : Invoker)
    (input_file funclist_path output_file : string) (invert : bool)
  : list string :=
  (tool_path self :: option_args (config self) ++ ["-emit-sib"]
   ++ [input_file; "-o"; output_file;
       ("-func-file=" ++ funclist_path)%string]
   ++ (if invert then ["-invert"] else []))%list.

Definition llvm_gen_cmd (self : Invoker) (input_file output_file : string)
  : list string :=
  (tool_path self :: option_args (config self)
   ++ [input_file; "-o"; output_file; "-output-kind=object"]
   ++ extra_args self)%list.

Definition nm_cmd (self : Invoker) (input_file : string) : list string :=
  (tool_path self :: option_args (config self) ++ [input_file])%list.

(** The object that [SILOptInvoker.__init__] leaves behind. *)
Section InvokerObjects.
Context {platform : Platform}.

Definition constant_input_object (cls : invoker_class)
    (config : SILToolInvokerConfig) (tools : SwiftTools)
    (initial_input_file : string) (extra_args : option (list string))
  : Invoker :=
  {| inv_class := cls;
     config := config;
     extra_args := or_empty extra_args;
     tools := tools;
     base_input_file_stem := fst (splitext (basename initial_input_file));
     original_base_input_file_ext :=
       snd (splitext (basename initial_input_file));
     base_input_file_ext := ".sib";
     input_file := initial_input_file |}.

Definition opt_invoker_object (config : SILToolInvokerConfig)
    (tools : SwiftTools) (input_file0 : string)
    (extra_args : option (list string)) : Invoker :=
  let base := constant_input_object SILOptInvoker config tools input_file0
                extra_args in
  set_input_file base (get_suffixed_filename base "initial" None).

End InvokerObjects.

(** ** A scripted host

    Like the host of [Demo], except that the commands listed in
    [script] end as the script says, and that [/missing] cannot be
    launched. *)
Module Demo2.

Fixpoint scripted (script : list (string * ProcOut)) (prog : string)
  : option ProcOut :=
  match script with
  | [] => None
  | (name, p) :: rest =>
      if String.eqb name prog then Some p else scripted rest prog
  end.

Definition scripted_popen (script : list (string * ProcOut))
    (opt_exit extract_exit : Z) (args : list string) (files : FS)
  : option (ProcOut * FS) :=
  match args with
  | prog :: _ =>
      if String.eqb prog "/missing" then None
      else match scripted script prog with
           | Some p =>
               Some (p, if (proc_exit p =? 0)%Z then
                          match Demo.output_of args with
                          | Some f => (f, "") :: files
                          | None => files
                          end
                        else files)
           | None => Demo.demo_popen opt_exit extract_exit args files
           end
  | [] => None
  end.

Definition host (script : list (string * ProcOut)) (opt_exit extract_exit : Z)
  : Platform :=
  {| sha256_hexdigest := fun data => data;
     md5_hexdigest := fun data => data;
     popen := scripted_popen script opt_exit extract_exit;
     abspath := fun p => if starts_with_slash p then p else "/cwd/" ++ p;
     basename := fun p => p;
     splitext := fun p => (p, "");
     repr_dict := fun r => fingerprint r |}.

Definition build_tools : SwiftTools := {| swift_build_dir := "/build" |}.

Definition nm : Invoker :=
  {| inv_class := SILNMInvoker;
     config := Demo.demo_config;
     extra_args := [];
     tools := build_tools;
     base_input_file_stem := "";
     original_base_input_file_ext := "";
     base_input_file_ext := "";
     input_file := "" |}.

Definition opt : Invoker :=
  {| inv_class := SILOptInvoker;
     config := Demo.demo_config;
     extra_args := ["-extra"];
     tools := build_tools;
     base_input_file_stem := "main";
     original_base_input_file_ext := "";
     base_input_file_ext := ".sib";
     input_file := "main" |}.

Definition llvm_gen : Invoker :=
  {| inv_class := SwiftLLVMGenInvoker;
     config := Demo.demo_config;
     extra_args := [];
     tools := build_tools;
     base_input_file_stem := "main";
     original_base_input_file_ext := "";
     base_input_file_ext := ".sib";
     input_file := "main" |}.

(** A world with every tool and the input file. *)
Definition w0 : World :=
  {| fs := [("/build/bin/sil-opt", ""); ("/build/bin/sil-func-extractor", "");
            ("/build/bin/sil-nm", ""); ("/build/bin/sil-llvm-gen", "");
            ("main", "")];
     events := [] |}.

(** A world with the input file but no tool. *)
Definition bare : World := {| fs := [("main", "")]; events := [] |}.

(** The listing [F A / G x / F B], each line ended by a newline. *)
Definition listing : string :=
  format_symbols [("F", "A"); ("G", "x"); ("F", "B")].

End Demo2.

(** * Properties *)


(** ** Strings *)

Lemma append_nil_r (s : string) : s ++ "" = s.
Proof. induction s as [|c s IH]; simpl; [reflexivity | now rewrite IH]. Qed.

Lemma append_assoc (a b c : string) : (a ++ b) ++ c = a ++ (b ++ c).
Proof. induction a as [|x a IH]; simpl; [reflexivity | now rewrite IH]. Qed.

Lemma append_cancel_l (a x y : string) : a ++ x = a ++ y -> x = y.
Proof.
  induction a as [|c a IH]; simpl; intros H; [exact H |].
  injection H as H. auto.
Qed.

Lemma list_ascii_of_append (a b : string) :
  list_ascii_of_string (a ++ b)
  = (list_ascii_of_string a ++ list_ascii_of_string b)%list.
Proof. induction a as [|c a IH]; simpl; [reflexivity | now rewrite IH]. Qed.

Lemma list_ascii_inj (a b : string) :
  list_ascii_of_string a = list_ascii_of_string b -> a = b.
Proof.
  intros H.
  rewrite <- (string_of_list_ascii_of_string a),
          <- (string_of_list_ascii_of_string b).
  now rewrite H.
Qed.

Lemma append_cancel_r (x y e : string) : x ++ e = y ++ e -> x = y.
Proof.
  intros H. apply list_ascii_inj.
  apply (f_equal list_ascii_of_string) in H.
  rewrite !list_ascii_of_append in H.
  now apply app_inv_tail in H.
Qed.

Lemma concat_nosep_cons (x : string) (l : list string) :
  String.concat "" (x :: l) = x ++ String.concat "" l.
Proof. destruct l; simpl; [now rewrite append_nil_r | reflexivity]. Qed.

Lemma fold_hash_update (l : list string) (h : hashobj) :
  fold_left hash_update l h = h ++ String.concat "" l.
Proof.
  revert h. induction l as [|x l IH]; intros h.
  - simpl. now rewrite append_nil_r.
  - rewrite concat_nosep_cons. cbn [fold_left]. rewrite IH.
    unfold hash_update. apply append_assoc.
Qed.



Lemma spawned_app (a b : list event) :
  spawned (a ++ b) = (spawned a ++ spawned b)%list.
Proof.
  induction a as [|e a IH]; simpl; [reflexivity |].
  destruct e; simpl; now rewrite IH.
Qed.

Lemma written_app (a b : list event) :
  written (a ++ b) = (written a ++ written b)%list.
Proof.
  induction a as [|e a IH]; simpl; [reflexivity |].
  destruct e; simpl; now rewrite IH.
Qed.


Section Fingerprints.
Context {platform : Platform}.


Lemma call_fingerprint_ok (args : list string) (es eo : bool) (w : World)
    (p : ProcOut) (files : FS) :
  popen args (fs w) = Some (p, files) ->
  fst (call_fingerprint args es eo w)
  = Ok {| exit_code := proc_exit p;
          fingerprint := sha256_hexdigest (digest_input p) |}.
Proof.
  intros H. unfold call_fingerprint, bind, Popen_communicate. rewrite H.
  assert (E : hash_update
                (hash_update
                   (if (proc_exit p =? 0)%Z then hash_update hash_new "0"
                    else hash_update hash_new "1") (proc_stdout p))
                (proc_stderr p) = digest_input p).
  { unfold digest_input, hash_update, hash_new.
    destruct (proc_exit p =? 0)%Z; reflexivity. }
  rewrite E. destruct es, eo; reflexivity.
Qed.

(** C9. A dry run returns exit code 0 and the empty fingerprint, prints
    the command line, and launches no process: the processes launched
    and the file system are those of before the call. *)
Theorem br_call_dry_run (args : list string) (echo : bool) (w : World) :
  fst (br_call args true echo w) = Ok {| exit_code := 0; fingerprint := "" |}
  /\ snd (br_call args true echo w)
     = {| fs := fs w;
          events := (events w ++ [EvPrint ("BRCALL: " ++ join_spaces args)])%list |}
  /\ spawned (events (snd (br_call args true echo w))) = spawned (events w).
Proof.
  unfold br_call, bind, when, print, emit, ret. simpl.
  repeat split. rewrite spawned_app. simpl. now rewrite app_nil_r.
Qed.

(** What the code gives for the fingerprints of two runs.  The
    fingerprint of a run is the digest of one byte for the exit-code
    class followed by the standard output and the standard error.  Two
    runs with the same exit-code class, standard output and standard
    error get the same fingerprint.  A run that exits with 0 and a run
    that does not feed different bytes to the digest, whatever their
    output; that their fingerprints differ follows only for a digest
    without collisions, which no digest of fixed length is. *)
Theorem call_fingerprint_deterministic_distinct
    (args1 args2 : list string) (es1 eo1 es2 eo2 : bool) (w1 w2 : World)
    (p1 p2 : ProcOut) (files1 files2 : FS) :
  popen args1 (fs w1) = Some (p1, files1) ->
  popen args2 (fs w2) = Some (p2, files2) ->
  exists r1 r2,
    fst (call_fingerprint args1 es1 eo1 w1) = Ok r1
    /\ fst (call_fingerprint args2 es2 eo2 w2) = Ok r2
    /\ exit_code r1 = proc_exit p1 /\ exit_code r2 = proc_exit p2
    /\ fingerprint r1 = sha256_hexdigest (digest_input p1)
    /\ fingerprint r2 = sha256_hexdigest (digest_input p2)
    /\ ((proc_exit p1 =? 0)%Z = (proc_exit p2 =? 0)%Z ->
        proc_stdout p1 = proc_stdout p2 ->
        proc_stderr p1 = proc_stderr p2 ->
        fingerprint r1 = fingerprint r2)
    /\ ((proc_exit p1 =? 0)%Z <> (proc_exit p2 =? 0)%Z ->
        digest_input p1 <> digest_input p2)
    /\ (collision_free sha256_hexdigest ->
        (proc_exit p1 =? 0)%Z <> (proc_exit p2 =? 0)%Z ->
        fingerprint r1 <> fingerprint r2).
Proof.
  intros H1 H2.
  assert (Hdiff : (proc_exit p1 =? 0)%Z <> (proc_exit p2 =? 0)%Z ->
                  digest_input p1 <> digest_input p2).
  { intros Hc Heq. unfold digest_input in Heq.
    destruct (proc_exit p1 =? 0)%Z, (proc_exit p2 =? 0)%Z;
      simpl in Heq; try discriminate; now apply Hc. }
  eexists; eexists.
  split; [exact (call_fingerprint_ok _ es1 eo1 _ _ _ H1) |].
  split; [exact (call_fingerprint_ok _ es2 eo2 _ _ _ H2) |].
  cbn [exit_code fingerprint].
  do 4 (split; [reflexivity |]). split; [| split].
  - intros Hc Ho He. unfold digest_input. now rewrite Hc, Ho, He.
  - exact Hdiff.
  - intros Hfree Hc Heq. apply Hfree in Heq. now apply Hdiff in Heq.
Qed.

End Fingerprints.

Lemma call_fingerprint_distinct_example :
  exists r1 r2,
    fst (@call_fingerprint (Demo.host 1 0) ["/build/bin/sil-opt"]
           true true Demo.w0) = Ok r1
    /\ fst (@call_fingerprint (Demo.host 1 0)
              ["/build/bin/sil-opt"; "-simplify-cfg"] true true Demo.w0) = Ok r2
    /\ exit_code r1 = 0%Z /\ exit_code r2 = 1%Z
    /\ fingerprint r1 <> fingerprint r2.
Proof.
  destruct (@call_fingerprint_deterministic_distinct (Demo.host 1 0)
              ["/build/bin/sil-opt"] ["/build/bin/sil-opt"; "-simplify-cfg"]
              true true true true Demo.w0 Demo.w0
              (mkProcOut 0 "" "") (mkProcOut 1 "" "")
              (fs Demo.w0) (fs Demo.w0) eq_refl eq_refl)
    as (r1 & r2 & H1 & H2 & E1 & E2 & _ & _ & _ & _ & Hd).
  exists r1, r2. repeat split; try assumption.
  apply Hd.
  - intros x y H. exact H.
  - vm_compute. discriminate.
Defined.

(** ** The monad *)

Lemma bind_ok {T U : Type} (m : M T) (k : T -> M U) (w w' : World) (a : T) :
  m w = (Ok a, w') -> bind m k w = k a w'.
Proof. intros H. unfold bind. now rewrite H. Qed.

Lemma bind_raise {T U : Type} (m : M T) (k : T -> M U) (w w' : World)
    (e : exn) :
  m w = (Raise e, w') -> bind m k w = (Raise e, w').
Proof. intros H. unfold bind. now rewrite H. Qed.

Lemma no_write_ret {T : Type} (a : T) : no_write (ret a).
Proof. intros w. reflexivity. Qed.

Lemma no_write_raise {T : Type} (e : exn) : no_write (@raise T e).
Proof. intros w. reflexivity. Qed.

Lemma no_write_bind {T U : Type} (m : M T) (k : T -> M U) :
  no_write m -> (forall a, no_write (k a)) -> no_write (bind m k).
Proof.
  intros Hm Hk w. unfold bind. specialize (Hm w).
  destruct (m w) as [[a|e] w']; simpl in *.
  - now rewrite Hk.
  - exact Hm.
Qed.

Lemma no_write_print (line : string) : no_write (print line).
Proof.
  intros w. unfold print, emit. simpl. rewrite written_app. simpl.
  now rewrite app_nil_r.
Qed.

Lemma no_write_when (c : bool) (m : M unit) : no_write m -> no_write (when c m).
Proof. destruct c; simpl; [auto | intros _; apply no_write_ret]. Qed.

Lemma no_write_os_access (f : string) : no_write (os_access f).
Proof. intros w. reflexivity. Qed.

Create HintDb nowrite.
#[local] Hint Resolve no_write_ret no_write_raise no_write_print
  no_write_os_access : nowrite.

Section ToolFacts.
Context {platform : Platform}.

Lemma no_write_Popen (args : list string) : no_write (Popen_communicate args).
Proof.
  intros w. unfold Popen_communicate.
  destruct (popen args (fs w)) as [[p files]|]; simpl; [| reflexivity].
  rewrite written_app. simpl. now rewrite app_nil_r.
Qed.

Lemma no_write_call_fingerprint (args : list string) (es eo : bool) :
  no_write (call_fingerprint args es eo).
Proof.
  unfold call_fingerprint.
  apply no_write_bind; [apply no_write_Popen | intros p].
  repeat (apply no_write_bind; [| intros ?]);
    try apply no_write_when;
    repeat (apply no_write_bind; [| intros ?]); auto with nowrite.
Qed.

Lemma no_write_br_call (args : list string) (dry echo : bool) :
  no_write (br_call args dry echo).
Proof.
  unfold br_call.
  apply no_write_bind; [apply no_write_when; auto with nowrite | intros _].
  destruct dry; [auto with nowrite | apply no_write_call_fingerprint].
Qed.

Lemma no_write_sanity_check (f : string) :
  no_write (sanity_check_file_exists f).
Proof.
  unfold sanity_check_file_exists.
  apply no_write_bind; [auto with nowrite | intros ok].
  destruct (negb ok); auto with nowrite.
Qed.

Lemma no_write_base_args (self : Invoker) (emit_sib emit_obj : bool) :
  no_write (base_args self emit_sib emit_obj).
Proof.
  unfold base_args. apply no_write_bind; [| auto with nowrite].
  unfold tool, sil_opt, sil_func_extractor, sil_nm, sil_llvm_gen, _get_tool.
  destruct (inv_class self);
    (apply no_write_bind; [auto with nowrite | intros ok];
     destruct (negb ok); auto with nowrite).
Qed.

Lemma no_write_invoke_with_functions (self : Invoker)
    (funclist_path output_filename : string) (invert : bool) :
  no_write (SILFuncExtractorInvoker_invoke_with_functions self funclist_path
              output_filename invert).
Proof.
  unfold SILFuncExtractorInvoker_invoke_with_functions,
    SILFuncExtractorInvoker_invoke, SILFuncExtractorInvoker_cmdline,
    br_call_default.
  apply no_write_bind; [| intros; apply no_write_br_call].
  repeat (apply no_write_bind;
          [first [apply no_write_sanity_check | apply no_write_base_args]
          | intros ?]).
  auto with nowrite.
Qed.

End ToolFacts.

(** ** Paths *)

Lemma os_path_join_inj (a b1 b2 : string) :
  starts_with_slash b1 = starts_with_slash b2 ->
  os_path_join a b1 = os_path_join a b2 -> b1 = b2.
Proof.
  unfold os_path_join. intros Hs. rewrite <- Hs.
  destruct (starts_with_slash b1); [auto |].
  destruct (String.eqb a "" || ends_with_slash a)%bool; intros H.
  - now apply append_cancel_l in H.
  - apply append_cancel_l in H. now apply append_cancel_l in H.
Qed.

Lemma get_suffixed_filename_inj (self : Invoker) (x y : string)
    (ext : option string) :
  get_suffixed_filename self x ext = get_suffixed_filename self y ext ->
  x = y.
Proof.
  unfold get_suffixed_filename. intros H.
  apply os_path_join_inj in H.
  - apply append_cancel_r in H. apply append_cancel_l in H.
    now apply append_cancel_l in H.
  - destruct (base_input_file_stem self); reflexivity.
Qed.

Section ReducerFacts.
Context {platform : Platform}.

Lemma get_funclist_hash_concat (funcs : list string) :
  get_funclist_hash funcs = md5_hexdigest (String.concat "" funcs).
Proof.
  unfold get_funclist_hash. rewrite fold_hash_update. reflexivity.
Qed.


(** *** [run_test] *)

Lemma nonempty_length {T : Type} (l : list T) :
  l <> [] -> (0 <? length l)%nat = true.
Proof. destruct l; [congruence | reflexivity]. Qed.

(** C4. [run_test] tests the suffix first, in the world it starts from,
    and answers KeepSuffix when that test succeeds; the prefix is tested
    only after the suffix leg found nothing, in the world the suffix leg
    left, and decides between KeepPrefix and NoFailure; a leg whose list
    is empty is skipped and leaves the world as it is.  Hence
    [run_test prefix []] is never KeepSuffix and [run_test [] suffix] is
    never KeepPrefix. *)
Theorem run_test_leg_order (self : ReduceMiscompilingFunctions)
    (prefix suffix : list string) (w : World) :
  (forall w1, suffix <> [] ->
     _test_funclist self suffix w = (Ok true, w1) ->
     run_test self prefix suffix w
     = (Ok (TESTRESULT_KEEPSUFFIX, prefix, suffix), w1))
  /\ (forall w1,
        (suffix = [] /\ w1 = w)
        \/ (suffix <> [] /\ _test_funclist self suffix w = (Ok false, w1)) ->
        (forall w2, prefix <> [] ->
           _test_funclist self prefix w1 = (Ok true, w2) ->
           run_test self prefix suffix w
           = (Ok (TESTRESULT_KEEPPREFIX, prefix, suffix), w2))
        /\ (forall w2, prefix <> [] ->
              _test_funclist self prefix w1 = (Ok false, w2) ->
              run_test self prefix suffix w
              = (Ok (TESTRESULT_NOFAILURE, prefix, suffix), w2))
        /\ (prefix = [] ->
            run_test self prefix suffix w
            = (Ok (TESTRESULT_NOFAILURE, prefix, suffix), w1)))
  /\ (forall out w', run_test self prefix [] w = (Ok out, w') ->
        fst (fst out) <> TESTRESULT_KEEPSUFFIX)
  /\ (forall out w', run_test self [] suffix w = (Ok out, w') ->
        fst (fst out) <> TESTRESULT_KEEPPREFIX).
Proof.
  split; [| split; [| split]].
  - intros w1 Hne H. unfold run_test, bind, and_then.
    rewrite (nonempty_length _ Hne), H. reflexivity.
  - intros w1 Hsuffix.
    assert (Hleg : and_then (0 <? length suffix)%nat
                     (_test_funclist self suffix) w = (Ok false, w1)).
    { destruct Hsuffix as [[-> ->] | [Hne H]]; [reflexivity |].
      unfold and_then. now rewrite (nonempty_length _ Hne). }
    unfold run_test. rewrite (bind_ok _ _ _ _ _ Hleg).
    split; [| split].
    + intros w2 Hne H. unfold bind, and_then.
      rewrite (nonempty_length _ Hne), H. reflexivity.
    + intros w2 Hne H. unfold bind, and_then.
      rewrite (nonempty_length _ Hne), H. reflexivity.
    + intros ->. reflexivity.
  - intros out w'. unfold run_test, bind, and_then. simpl.
    destruct (0 <? length prefix)%nat.
    + destruct (_test_funclist self prefix w) as [[[]|e] w1];
        intros H; inversion H; subst; simpl; discriminate.
    + intros H; inversion H; subst; simpl; discriminate.
  - intros out w'. unfold run_test, bind, and_then. simpl.
    destruct (0 <? length suffix)%nat.
    + destruct (_test_funclist self suffix w) as [[[]|e] w1];
        intros H; inversion H; subst; simpl; discriminate.
    + intros H; inversion H; subst; simpl; discriminate.
Qed.

(** C10. The two lists that [run_test] returns next to the tag are the
    prefix and the suffix it was called with. *)
Theorem run_test_frame (self : ReduceMiscompilingFunctions)
    (prefix suffix : list string) (w w' : World)
    (tag : TestResult) (p s : list string) :
  run_test self prefix suffix w = (Ok (tag, p, s), w') ->
  p = prefix /\ s = suffix.
Proof.
  unfold run_test, bind, and_then.
  repeat (match goal with
          | |- context [_test_funclist ?r ?l ?x] =>
              destruct (_test_funclist r l x) as [[[]|?] ?]
          | |- context [(0 <? length ?l)%nat] => destruct (0 <? length l)%nat
          end; cbv beta iota delta [ret]);
    intros H; inversion H; subst; now split.
Qed.

(** *** [_test_funclist] *)

Lemma _test_funclist_steps (self : ReduceMiscompilingFunctions)
    (funcs : list string) (w : World) :
  _test_funclist self funcs w
  = extract_and_test self funcs
      {| fs := (funclist_path self funcs, funclist_file_content funcs) :: fs w;
         events :=
           (events w
            ++ [EvWrite (funclist_path self funcs) (funclist_file_content funcs);
                EvPrint ("Checking to see if the program is misoptimized with func list: "
                         ++ funclist_path self funcs)])%list |}.
Proof.
  unfold _test_funclist, extract_and_test, bind, write_file, print, emit.
  simpl. rewrite <- app_assoc. reflexivity.
Qed.

Lemma funclist_file_content_lines (funcs : list string) (acc : string) :
  fold_left (fun written f => written ++ (f ++ String newline "")) funcs acc
  = acc ++ String.concat "" (map (fun f => f ++ String newline "") funcs).
Proof.
  revert acc. induction funcs as [|f funcs IH]; intros acc.
  - simpl. now rewrite append_nil_r.
  - cbn [fold_left map]. rewrite concat_nosep_cons, IH.
    apply append_assoc.
Qed.

(** C8. The scratch files of one tested list, whose content hash is
    [h].  [_test_funclist] first writes the description file
    [<work_dir>/func_list_<h>], whose content is the elements in order,
    each followed by a newline, and announces it: this is all that has
    changed when the extraction starts.  The two stems are [h] and
    [h_invert]: the extractor is asked for the file of the first stem
    and then, inverted, for the file of the second, both from this
    description file, and the tester gets the two files with the two
    stems.  The tester writing no file itself, the description file is
    the only file that [_test_funclist] writes. *)
Theorem _test_funclist_scratch_layout (self : ReduceMiscompilingFunctions)
    (funcs : list string) (w : World) :
  let ex := silextract self in
  let h := get_funclist_hash funcs in
  let path := os_path_join (work_dir (config ex)) ("func_list_" ++ h) in
  let content :=
    String.concat "" (map (fun f => f ++ String newline "") funcs) in
  let outfile := get_suffixed_filename ex h None in
  let outfile_invert := get_suffixed_filename ex (h ++ "_invert") None in
  get_output_filename_stems h = (h, h ++ "_invert")
  /\ _test_funclist self funcs w
     = (_ <- SILFuncExtractorInvoker_invoke_with_functions ex path outfile
               false ;;
        _ <- SILFuncExtractorInvoker_invoke_with_functions ex path
               outfile_invert true ;;
        tester_call (tester self) outfile h outfile_invert (h ++ "_invert"))
       {| fs := (path, content) :: fs w;
          events :=
            (events w
             ++ [EvWrite path content;
                 EvPrint ("Checking to see if the program is misoptimized with func list: "
                          ++ path)])%list |}
  /\ ((forall a b c d, no_write (tester_call (tester self) a b c d)) ->
      written (events (snd (_test_funclist self funcs w)))
      = (written (events w) ++ [(path, content)])%list).
Proof.
  intros ex h path content outfile outfile_invert.
  assert (Hcontent : funclist_file_content funcs = content).
  { unfold funclist_file_content. now rewrite funclist_file_content_lines. }
  assert (Hsteps := _test_funclist_steps self funcs w).
  unfold extract_and_test, funclist_path, outfile_of, outfile_invert_of
    in Hsteps.
  cbn [get_output_filename_stems fst snd] in Hsteps.
  rewrite Hcontent in Hsteps.
  fold ex in Hsteps. fold h in Hsteps. fold path in Hsteps.
  fold outfile in Hsteps. fold outfile_invert in Hsteps.
  split; [reflexivity |]. split; [exact Hsteps |].
  intros Htester. rewrite Hsteps.
  assert (Hnw : no_write
                  (_ <- SILFuncExtractorInvoker_invoke_with_functions ex path
                          outfile false ;;
                   _ <- SILFuncExtractorInvoker_invoke_with_functions ex path
                          outfile_invert true ;;
                   tester_call (tester self) outfile h outfile_invert
                     (h ++ "_invert"))).
  { repeat (apply no_write_bind;
            [apply no_write_invoke_with_functions | intros ?]).
    apply Htester. }
  rewrite Hnw. simpl. rewrite written_app. reflexivity.
Qed.

End ReducerFacts.

Section DriverFacts.
Context {platform : Platform}.

(** The extractor's results are dropped: whatever exit codes the two
    extractor runs report, [_test_funclist] goes on to the tester. *)
Lemma _test_funclist_drops_extraction_status
    (self : ReduceMiscompilingFunctions) (funcs : list string)
    (w w1 w2 : World) (r1 r2 : RunResult) :
  _test_funclist self funcs w = extract_and_test self funcs w1 ->
  SILFuncExtractorInvoker_invoke_with_functions (silextract self)
    (funclist_path self funcs) (outfile_of self funcs) false w1 = (Ok r1, w2) ->
  forall w3,
  SILFuncExtractorInvoker_invoke_with_functions (silextract self)
    (funclist_path self funcs) (outfile_invert_of self funcs) true w2
  = (Ok r2, w3) ->
  _test_funclist self funcs w
  = tester_call (tester self) (outfile_of self funcs) (get_funclist_hash funcs)
      (outfile_invert_of self funcs) (get_funclist_hash funcs ++ "_invert") w3.
Proof.
  intros -> H1 w3 H2. unfold extract_and_test.
  rewrite (bind_ok _ _ _ _ _ H1), (bind_ok _ _ _ _ _ H2). reflexivity.
Qed.

(** The compile pipeline does check its setup steps: a nonzero exit of
    the optimizer run or of the code generator raises [RuntimeError]. *)
Lemma SwiftOptCompileInvoker_setup_failure_raises
    (self : SwiftOptCompileInvoker) (passes : option (list string))
    (sib obj : string) (w w1 : World) (result : RunResult) :
  SILOptInvoker_invoke_with_passlist (sil_opt_invoker self) passes sib w
  = (Ok result, w1) ->
  (exit_code result <> 0%Z ->
   SwiftOptCompileInvoker_invoke_with_passlist self passes sib obj w
   = (Raise (RuntimeError "Optimizer Compile Time Crasher?!"), w1))
  /\ (exit_code result = 0%Z ->
      forall gen w2 result2 w3,
        SwiftLLVMGenInvoker_init (soc_config self) (soc_tools self) sib
          (soc_extra_args self) w1 = (Ok gen, w2) ->
        SwiftLLVMGenInvoker_invoke gen obj w2 = (Ok result2, w3) ->
        exit_code result2 <> 0%Z ->
        exists w4,
          SwiftOptCompileInvoker_invoke_with_passlist self passes sib obj w
          = (Raise (RuntimeError "Swift LLVM Gen Compile Time Crasher?!"), w4)).
Proof.
  intros H. unfold SwiftOptCompileInvoker_invoke_with_passlist.
  rewrite (bind_ok _ _ _ _ _ H). split.
  - intros Hne. apply Z.eqb_neq in Hne. now rewrite Hne.
  - intros Hz gen w2 result2 w3 Hgen Hinv Hne.
    apply Z.eqb_eq in Hz. rewrite Hz. cbn [negb].
    rewrite (bind_ok _ _ _ _ _ Hgen), (bind_ok _ _ _ _ _ Hinv).
    apply Z.eqb_neq in Hne. unfold bind, print, emit. rewrite Hne.
    eexists. reflexivity.
Qed.

Lemma SILOptInvoker_cmdline_needs_passes (self : Invoker) (f out : string)
    (emit_sib : bool) (w w' : World) (cmdline : list string) :
  SILOptInvoker_cmdline self f None emit_sib out w <> (Ok cmdline, w').
Proof.
  unfold SILOptInvoker_cmdline, bind, extend_passes, raise.
  destruct (base_args self emit_sib false w) as [[x|e] w1]; [| discriminate].
  destruct (sanity_check_file_exists f w1) as [[[]|e] w2]; discriminate.
Qed.

Lemma invoke_with_passlist_needs_passes (self : Invoker) (out : string)
    (w w' : World) (result : RunResult) :
  SILOptInvoker_invoke_with_passlist self None out w <> (Ok result, w').
Proof.
  unfold SILOptInvoker_invoke_with_passlist, SILOptInvoker_invoke, bind.
  destruct (SILOptInvoker_cmdline self (input_file self) None true out w)
    as [[cmdline|e] w1] eqn:E; [| discriminate].
  now apply SILOptInvoker_cmdline_needs_passes in E.
Qed.

(** C7. Once the optimizer invoker is set up, the driver runs the base
    case.  If it exits with 0 the driver prints the success line and
    returns: nothing else happens after the base case, whatever the
    names the reduction would use are bound to.  Otherwise, and only
    then, it goes on to build the extractor, the tester and the
    reducer. *)
Theorem invoke_function_bug_reducer_base_case
    (globals : ModuleGlobals) (args : Args) (w w1 w2 : World)
    (sil_opt_invoker : Invoker) (result : RunResult) :
  let tools := {| swift_build_dir := args_swift_build_dir args |} in
  let config := SILToolInvokerConfig_init args in
  SILOptInvoker_init config tools (args_input_file args)
    (args_extra_args args) w = (Ok sil_opt_invoker, w1) ->
  SILOptInvoker_invoke_with_passlist sil_opt_invoker (args_pass_list args)
    (get_suffixed_filename sil_opt_invoker "base_case" None) w1
  = (Ok result, w2) ->
  (exit_code result = 0%Z ->
   exists passes,
     args_pass_list args = Some passes
     /\ invoke_function_bug_reducer globals args w
        = (Ok tt,
           {| fs := fs w2;
              events :=
                (events w2
                 ++ [EvPrint ("Success with PassList: " ++ join_spaces passes)])%list |}))
  /\ (exit_code result <> 0%Z ->
      invoke_function_bug_reducer globals args w
      = (sil_extract_invoker <- SILFuncExtractorInvoker_init config tools
                                  (args_input_file args) ;;
         make_tester <- load_global "OptimizerTester"
                          (global_OptimizerTester globals) ;;
         pass_list <- load_global "pass_list" (global_pass_list globals) ;;
         tester <- make_tester sil_opt_invoker pass_list ;;
         function_bug_reducer (args_input_file args)
           (SILNMInvoker_init config tools) sil_opt_invoker
           sil_extract_invoker (args_pass_list args) tester) w2).
Proof.
  intros tools config Hinit Hbase.
  unfold invoke_function_bug_reducer. fold tools. fold config.
  rewrite (bind_ok _ _ _ _ _ Hinit), (bind_ok _ _ _ _ _ Hbase).
  split.
  - intros Hz. apply Z.eqb_eq in Hz. rewrite Hz.
    destruct (args_pass_list args) as [passes|] eqn:E.
    + exists passes. split; reflexivity.
    + now apply invoke_with_passlist_needs_passes in Hbase.
  - intros Hne. apply Z.eqb_neq in Hne. now rewrite Hne.
Qed.

End DriverFacts.

(** ** Runs on the concrete host *)

(** C5, at a failing input. The extractor exits with status 1 on both of
    its runs and the tester sees no anomaly: [run_test] answers
    NoFailure instead of raising. *)
Theorem extraction_failure_reported_as_no_failure :
  let cmd := ["/build/bin/sil-func-extractor"; "-emit-sib"; "main"; "-o";
              "/work/main_A.sib"; "-func-file=/work/func_list_A"] in
  let cmd_invert := ["/build/bin/sil-func-extractor"; "-emit-sib"; "main";
                     "-o"; "/work/main_A_invert.sib";
                     "-func-file=/work/func_list_A"; "-invert"] in
  let run := @run_test (Demo.host 0 1) (Demo.demo_reducer (fun _ => false))
               ["A"] [] Demo.w0 in
  fst run = Ok (TESTRESULT_NOFAILURE, ["A"], [])
  /\ spawned (events (snd run)) = [cmd; cmd_invert]
  /\ (forall files,
        option_map (fun r => proc_exit (fst r))
          (@popen (Demo.host 0 1) cmd files) = Some 1%Z
        /\ option_map (fun r => proc_exit (fst r))
             (@popen (Demo.host 0 1) cmd_invert files) = Some 1%Z).
Proof.
  repeat split.
Qed.



Lemma C4_witness :
  let H := Demo.host 0 0 in
  let r := Demo.demo_reducer Demo.mentions_C in
  fst (@run_test H r ["A"; "B"] ["C"; "D"] Demo.w0)
  = Ok (TESTRESULT_KEEPSUFFIX, ["A"; "B"], ["C"; "D"])
  /\ fst (@run_test H r ["C"] ["D"] Demo.w0)
     = Ok (TESTRESULT_KEEPPREFIX, ["C"], ["D"])
  /\ fst (@run_test H r ["A"] ["B"] Demo.w0)
     = Ok (TESTRESULT_NOFAILURE, ["A"], ["B"])
  /\ @run_test H r [] [] Demo.w0
     = (Ok (TESTRESULT_NOFAILURE, [], []), Demo.w0)
  /\ fst (fst (TESTRESULT_KEEPPREFIX, ["C"], @nil string))
     <> TESTRESULT_KEEPSUFFIX
  /\ fst (fst (TESTRESULT_KEEPSUFFIX, @nil string, ["C"]))
     <> TESTRESULT_KEEPPREFIX.
Proof.
  intros H r.
  pose (t := fun l w => @_test_funclist H r l w).
  refine (conj _ (conj _ (conj _ (conj _ (conj _ _))))).
  - destruct (@run_test_leg_order H r ["A"; "B"] ["C"; "D"] Demo.w0)
      as (K & _).
    rewrite (K (snd (t ["C"; "D"] Demo.w0)));
      [reflexivity | discriminate | vm_compute; reflexivity].
  - destruct (@run_test_leg_order H r ["C"] ["D"] Demo.w0) as (_ & K & _).
    destruct (K (snd (t ["D"] Demo.w0))) as (K1 & _).
    + right. split; [discriminate | vm_compute; reflexivity].
    + rewrite (K1 (snd (t ["C"] (snd (t ["D"] Demo.w0)))));
        [reflexivity | discriminate | vm_compute; reflexivity].
  - destruct (@run_test_leg_order H r ["A"] ["B"] Demo.w0) as (_ & K & _).
    destruct (K (snd (t ["B"] Demo.w0))) as (_ & K2 & _).
    + right. split; [discriminate | vm_compute; reflexivity].
    + rewrite (K2 (snd (t ["A"] (snd (t ["B"] Demo.w0)))));
        [reflexivity | discriminate | vm_compute; reflexivity].
  - destruct (@run_test_leg_order H r [] [] Demo.w0) as (_ & K & _).
    destruct (K Demo.w0) as (_ & _ & K3).
    + left. split; reflexivity.
    + apply K3. reflexivity.
  - destruct (@run_test_leg_order H r ["C"] [] Demo.w0) as (_ & _ & K & _).
    apply (K _ (snd (@run_test H r ["C"] [] Demo.w0))).
    vm_compute. reflexivity.
  - destruct (@run_test_leg_order H r [] ["C"] Demo.w0) as (_ & _ & _ & K).
    apply (K _ (snd (@run_test H r [] ["C"] Demo.w0))).
    vm_compute. reflexivity.
Defined.

Lemma C10_witness :
  exists tag p s w',
    @run_test (Demo.host 0 0) (Demo.demo_reducer Demo.mentions_C)
      ["A"; "B"] ["C"; "D"] Demo.w0 = (Ok (tag, p, s), w')
    /\ p = ["A"; "B"] /\ s = ["C"; "D"].
Proof.
  assert (E : @run_test (Demo.host 0 0) (Demo.demo_reducer Demo.mentions_C)
                ["A"; "B"] ["C"; "D"] Demo.w0
              = (Ok (TESTRESULT_KEEPSUFFIX, ["A"; "B"], ["C"; "D"]),
                 snd (@run_test (Demo.host 0 0)
                        (Demo.demo_reducer Demo.mentions_C)
                        ["A"; "B"] ["C"; "D"] Demo.w0))).
  { vm_compute. reflexivity. }
  eexists _, _, _, _. split; [exact E |].
  exact (@run_test_frame (Demo.host 0 0) _ _ _ _ _ _ _ _ E).
Defined.

Lemma C8_witness :
  let H := Demo.host 0 0 in
  let r := Demo.demo_reducer Demo.mentions_C in
  let run := @_test_funclist H r ["A"; "B"] Demo.w0 in
  let content :=
    String.concat "" ["A"; String newline ""; "B"; String newline ""] in
  (forall a b c d, no_write (tester_call (tester r) a b c d))
  /\ fst run = Ok false
  /\ written (events (snd run)) = [("/work/func_list_AB", content)]
  /\ In ("/work/func_list_AB", content) (fs (snd run))
  /\ spawned (events (snd run))
     = [["/build/bin/sil-func-extractor"; "-emit-sib"; "main"; "-o";
         "/work/main_AB.sib"; "-func-file=/work/func_list_AB"];
        ["/build/bin/sil-func-extractor"; "-emit-sib"; "main"; "-o";
         "/work/main_AB_invert.sib"; "-func-file=/work/func_list_AB";
         "-invert"]].
Proof.
  intros H r run content.
  assert (Ht : forall a b c d, no_write (tester_call (tester r) a b c d)).
  { intros a b c d w. reflexivity. }
  destruct (@_test_funclist_scratch_layout H r ["A"; "B"] Demo.w0)
    as (_ & E & K).
  refine (conj Ht (conj _ (conj _ (conj _ _)))).
  - unfold run. rewrite E. vm_compute. reflexivity.
  - unfold run. rewrite (K Ht). reflexivity.
  - unfold run. rewrite E. vm_compute. tauto.
  - unfold run. rewrite E. vm_compute. reflexivity.
Defined.

Lemma C7_witness :
  exists w',
    @invoke_function_bug_reducer (Demo.host 0 0) Demo.no_globals
      Demo.demo_args Demo.w0 = (Ok tt, w')
    /\ last (events w') (EvPrint "")
       = EvPrint "Success with PassList: -simplify-cfg"
    /\ @invoke_function_bug_reducer (Demo.host 1 0) Demo.no_globals
         Demo.demo_args Demo.w0
       = (Raise (NameError "OptimizerTester"),
          snd (@invoke_function_bug_reducer (Demo.host 1 0) Demo.no_globals
                 Demo.demo_args Demo.w0)).
Proof.
  pose (init := fun H =>
          @SILOptInvoker_init H
            (@SILToolInvokerConfig_init H Demo.demo_args)
            {| swift_build_dir := "/build" |} "main" None Demo.w0).
  pose (base := fun H inv w1 =>
          @SILOptInvoker_invoke_with_passlist H inv (Some ["-simplify-cfg"])
            (get_suffixed_filename inv "base_case" None) w1).
  pose (inv := {| inv_class := SILOptInvoker;
                  config := Demo.demo_config;
                  extra_args := [];
                  tools := {| swift_build_dir := "/build" |};
                  base_input_file_stem := "main";
                  original_base_input_file_ext := "";
                  base_input_file_ext := ".sib";
                  input_file := "/work/main_initial.sib" |}).
  assert (I0 : init (Demo.host 0 0) = (Ok inv, snd (init (Demo.host 0 0)))).
  { vm_compute. reflexivity. }
  assert (I1 : init (Demo.host 1 0) = (Ok inv, snd (init (Demo.host 1 0)))).
  { vm_compute. reflexivity. }
  assert (B0 : base (Demo.host 0 0) inv (snd (init (Demo.host 0 0)))
               = (Ok (mkRunResult 0 "0"),
                  snd (base (Demo.host 0 0) inv (snd (init (Demo.host 0 0)))))).
  { vm_compute. reflexivity. }
  assert (B1 : base (Demo.host 1 0) inv (snd (init (Demo.host 1 0)))
               = (Ok (mkRunResult 1 "1"),
                  snd (base (Demo.host 1 0) inv (snd (init (Demo.host 1 0)))))).
  { vm_compute. reflexivity. }
  destruct (@invoke_function_bug_reducer_base_case (Demo.host 0 0)
              Demo.no_globals Demo.demo_args _ _ _ _ _ I0 B0) as (Z0 & _).
  destruct (Z0 eq_refl) as (passes & Hp & Hrun).
  injection Hp as <-.
  destruct (@invoke_function_bug_reducer_base_case (Demo.host 1 0)
              Demo.no_globals Demo.demo_args _ _ _ _ _ I1 B1) as (_ & N1).
  eexists. split; [exact Hrun |]. split.
  - vm_compute. reflexivity.
  - rewrite N1 by discriminate. vm_compute. reflexivity.
Defined.

(** ** The minimization engine *)

Lemma boundary_le (n k i : nat) : 0 < k -> i <= k -> boundary n k i <= n.
Proof.
  intros Hk Hi. unfold boundary.
  apply Nat.Div0.div_le_upper_bound.
  rewrite (Nat.mul_comm k n), (Nat.mul_comm i n).
  now apply Nat.mul_le_mono_l.
Qed.

Lemma boundary_step (n k i : nat) :
  0 < k -> k <= n -> boundary n k i < boundary n k (S i).
Proof.
  intros Hk Hn. unfold boundary.
  apply Nat.lt_le_trans with ((i * n + 1 * k) / k).
  - rewrite Nat.div_add by lia. lia.
  - apply Nat.Div0.div_le_mono. lia.
Qed.

Lemma boundary_0 (n k : nat) : boundary n k 0 = 0.
Proof. unfold boundary. simpl. apply Nat.Div0.div_0_l. Qed.

Lemma boundary_mono (n k i j : nat) :
  i <= j -> boundary n k i <= boundary n k j.
Proof.
  intros H. unfold boundary. apply Nat.Div0.div_le_mono.
  now apply Nat.mul_le_mono_r.
Qed.

Lemma boundary_1_lt (n k : nat) : 2 <= k -> 0 < n -> boundary n k 1 < n.
Proof.
  intros Hk Hn. unfold boundary. rewrite Nat.mul_1_l.
  apply Nat.div_lt; lia.
Qed.

Lemma boundary_pos (n k i : nat) :
  0 < k -> k <= n -> 0 < i -> 0 < boundary n k i.
Proof.
  intros Hk Hn Hi.
  apply Nat.lt_le_trans with (boundary n k 1).
  - pose proof (boundary_step n k 0 Hk Hn) as H.
    rewrite boundary_0 in H. exact H.
  - apply boundary_mono. lia.
Qed.

Section PartitionFacts.
Context {A : Type}.

Lemma chunk_length (k i : nat) (l : list A) :
  0 < k -> i < k ->
  length (chunk k i l)
  = boundary (length l) k (S i) - boundary (length l) k i.
Proof.
  intros Hk Hi. unfold chunk. rewrite length_firstn, length_skipn.
  pose proof (boundary_le (length l) k (S i) Hk ltac:(lia)). lia.
Qed.

Lemma complement_length (k i : nat) (l : list A) :
  0 < k -> i < k ->
  length (complement k i l)
  = boundary (length l) k i + (length l - boundary (length l) k (S i)).
Proof.
  intros Hk Hi. unfold complement.
  rewrite length_app, length_firstn, length_skipn.
  pose proof (boundary_le (length l) k i Hk ltac:(lia)). lia.
Qed.

(** With between 2 and [length l] chunks, a chunk and its complement are
    both strictly shorter than the list. *)
Lemma parts_shorter (k i : nat) (l : list A) :
  2 <= k -> k <= length l -> i < k ->
  length (chunk k i l) < length l /\ length (complement k i l) < length l.
Proof.
  intros Hk Hn Hi.
  rewrite chunk_length, complement_length by lia.
  pose proof (boundary_step (length l) k i ltac:(lia) Hn) as Hstep.
  pose proof (boundary_le (length l) k (S i) ltac:(lia) ltac:(lia)) as Hhi.
  split; [| lia].
  destruct i as [|i].
  - rewrite boundary_0.
    pose proof (boundary_1_lt (length l) k Hk ltac:(lia)). lia.
  - pose proof (boundary_pos (length l) k (S i) ltac:(lia) Hn ltac:(lia)).
    lia.
Qed.

Lemma probes_length (k : nat) (l : list A) : length (probes k l) = 2 * k.
Proof.
  unfold probes. rewrite length_app, !length_map, length_seq. lia.
Qed.

Lemma probes_shorter (k : nat) (l : list A) (p : Probe) :
  2 <= k -> k <= length l -> In p (probes k l) ->
  length (probe_prefix p) < length l /\ length (probe_suffix p) < length l.
Proof.
  intros Hk Hn Hin. unfold probes in Hin.
  apply in_app_or in Hin.
  destruct Hin as [Hin | Hin]; apply in_map_iff in Hin;
    destruct Hin as (i & <- & Hi); apply in_seq in Hi; simpl;
    destruct (parts_shorter k i l Hk Hn ltac:(lia)); split; assumption.
Qed.

End PartitionFacts.

(** *** Arithmetic of the two bounds *)

Lemma calls_bound_hit (n n' g g' : nat) :
  n' < n -> 2 * Nat.min g n + calls_bound n' g' <= calls_bound n g.
Proof.
  intros Hn. unfold calls_bound.
  assert (Hsq : n' * n' + 2 * n' + 1 <= n * n) by nia.
  destruct (Nat.ltb_spec g' n'), (Nat.ltb_spec g n); nia.
Qed.

Lemma calls_bound_double (n g : nat) :
  g < n ->
  2 * Nat.min g n + calls_bound n (Nat.min (2 * g) n) <= calls_bound n g.
Proof.
  intros Hg. unfold calls_bound.
  destruct (Nat.ltb_spec (Nat.min (2 * g) n) n), (Nat.ltb_spec g n); lia.
Qed.

Lemma calls_bound_stop (n g : nat) : 2 * Nat.min g n <= calls_bound n g.
Proof.
  unfold calls_bound. destruct (Nat.ltb_spec g n); nia.
Qed.

Lemma calls_bound_initial (n : nat) : calls_bound n 2 <= 4 * n * n + 6 * n.
Proof.
  unfold calls_bound. destruct (Nat.ltb_spec 2 n); nia.
Qed.

Lemma rounds_left_hit (n n' g g' : nat) :
  n' < n -> rounds_left n' g' < rounds_left n g.
Proof. intros Hn. unfold rounds_left. nia. Qed.

Lemma rounds_left_double (n g : nat) :
  1 <= g -> g < n -> rounds_left n (Nat.min (2 * g) n) < rounds_left n g.
Proof. intros Hg Hn. unfold rounds_left. lia. Qed.

Lemma rounds_bound_initial (n : nat) : rounds_left n 2 < rounds_bound n.
Proof. unfold rounds_left, rounds_bound. lia. Qed.

Section EngineFacts.
Context {A : Type}.
Variable oracle : list A -> list A -> M (@Outcome A).

(** A scan invokes the oracle at most once per probe, and what it
    reports is a part of one of the probes. *)
Lemma scan_calls (ps : list Probe) :
  forall (calls : nat) (w : World) (r : ScanResult) (calls' : nat)
         (w' : World),
    scan oracle ps calls w = (r, calls', w') ->
    calls <= calls' <= calls + length ps
    /\ match r with
       | Hit _ part =>
           exists p, In p ps
                     /\ (part = probe_prefix p \/ part = probe_suffix p)
       | _ => True
       end.
Proof.
  induction ps as [|p ps IH]; intros calls w r calls' w' H.
  - inversion H; subst. simpl. split; [lia | exact I].
  - cbn [scan] in H.
    destruct (oracle (probe_prefix p) (probe_suffix p) w)
      as [[[[tag p1] s1]|e] w1].
    + destruct tag.
      * inversion H; subst. simpl. split; [lia |].
        exists p. split; [now left | now left].
      * inversion H; subst. simpl. split; [lia |].
        exists p. split; [now left | now right].
      * apply IH in H. destruct H as [Hc Hr]. simpl. split; [lia |].
        destruct r; auto.
        destruct Hr as (q & Hq & Hpart). exists q. split; [now right | auto].
    + inversion H; subst. simpl. split; [lia | exact I].
Qed.

Lemma history_held (t : list A) (rw : Run * World) :
  history (fst (held t rw)) = t :: history (fst rw).
Proof. reflexivity. Qed.

(** With a granularity of at least 2 and fuel for the rounds left, the
    loop ends by itself, within the bound on the invocations, and its
    targets only shrink. *)
Lemma reduce_loop_bounded (fuel : nat) :
  forall (st : ReductionState) (w : World),
    2 <= cur_granularity st ->
    rounds_left (length (cur_target st)) (cur_granularity st) < fuel ->
    let r := fst (reduce_loop oracle fuel st w) in
    status r <> OutOfFuel
    /\ invocation_count (final r)
       <= invocation_count st
          + calls_bound (length (cur_target st)) (cur_granularity st)
    /\ (exists rest, history r = cur_target st :: rest)
    /\ steps_shrink (history r)
    /\ length (cur_target (final r)) <= length (cur_target st).
Proof.
  induction fuel as [|fuel IH]; intros st w Hg Hfuel; [lia |].
  cbn [reduce_loop].
  destruct (Nat.ltb_spec (length (cur_target st)) 2) as [Hsmall | Hbig].
  { simpl. repeat split; try discriminate; try lia. now exists []. }
  set (n := length (cur_target st)) in *.
  set (g := cur_granularity st) in *.
  destruct (scan oracle (probes (Nat.min g n) (cur_target st))
              (invocation_count st) w) as [[r calls] w'] eqn:Hscan.
  apply scan_calls in Hscan. rewrite probes_length in Hscan.
  destruct Hscan as [Hcalls Hpart].
  destruct r as [is_chunk part | | e].
  - (* a part reproduces: it becomes the target *)
    destruct Hpart as (p & Hin & Hp).
    apply probes_shorter in Hin; [| lia | lia].
    assert (Hlen : length part < n) by (destruct Hp; subst; lia).
    set (g' := if is_chunk then 2 else Nat.max (g - 1) 2).
    assert (Hg' : 2 <= g') by (unfold g'; destruct is_chunk; lia).
    pose proof (rounds_left_hit n (length part) g g' Hlen) as Hr.
    pose proof (calls_bound_hit n (length part) g g' Hlen) as Hc.
    destruct (IH (mkState part g' calls) w' Hg'
                ltac:(cbn [cur_target cur_granularity]; lia))
      as (Hstatus & Hcount & (rest & Hhist) & Hshrink & Hfinal).
    cbn [cur_target cur_granularity invocation_count] in Hcount, Hhist, Hfinal.
    cbn [held fst status final history].
    repeat split.
    + exact Hstatus.
    + lia.
    + eexists. reflexivity.
    + rewrite Hhist in *. cbn [steps_shrink]. split; [right; exact Hlen |].
      exact Hshrink.
    + lia.
  - (* nothing reproduces at this granularity *)
    destruct (Nat.ltb_spec g n) as [Hlt | Hge].
    + pose proof (rounds_left_double n g ltac:(lia) Hlt) as Hr.
      pose proof (calls_bound_double n g Hlt) as Hc.
      destruct (IH (mkState (cur_target st) (Nat.min (2 * g) n) calls) w'
                  ltac:(simpl; lia)
                  ltac:(cbn [cur_target cur_granularity]; fold n; lia))
        as (Hstatus & Hcount & (rest & Hhist) & Hshrink & Hfinal).
      cbn [cur_target cur_granularity invocation_count] in Hcount, Hhist, Hfinal.
      fold n in Hcount, Hfinal.
      cbn [held fst status final history].
      repeat split.
      * exact Hstatus.
      * lia.
      * eexists. reflexivity.
      * rewrite Hhist in *. cbn [steps_shrink]. split; [now left |].
        exact Hshrink.
      * exact Hfinal.
    + pose proof (calls_bound_stop n g). simpl.
      repeat split; try discriminate; try lia. now exists [].
  - (* the oracle raised a fatal error *)
    pose proof (calls_bound_stop n g). simpl.
    repeat split; try discriminate; try lia. now exists [].
Qed.

(** C6. Whatever the oracle answers, also when it always answers
    NoFailure, [reduce] ends by itself (it does not run out of rounds);
    on a list of [n] elements it invokes the oracle at most
    [4 n^2 + 6 n] times; and from one target it holds to the next, the
    target is kept or gets strictly shorter. *)
Theorem reduce_terminates (l : list A) (w : World) :
  let r := fst (reduce oracle l w) in
  status r <> OutOfFuel
  /\ invocation_count (final r) <= 4 * length l * length l + 6 * length l
  /\ steps_shrink (history r)
  /\ length (cur_target (final r)) <= length l.
Proof.
  unfold reduce.
  destruct (reduce_loop_bounded (rounds_bound (length l)) (mkState l 2 0) w)
    as (Hstatus & Hcount & _ & Hshrink & Hfinal).
  - simpl. lia.
  - simpl. apply rounds_bound_initial.
  - simpl in *. pose proof (calls_bound_initial (length l)).
    repeat split; try assumption. lia.
Qed.

End EngineFacts.

Section AnomalyPreservation.
Context {A : Type}.
Variable oracle : list A -> list A -> M (@Outcome A).

(** The worlds in which the oracle is run, and what it answers there:
    in such a world the tag depends on the two lists only. *)
Variable Inv : World -> Prop.
Variable verdict : list A -> list A -> option TestResult.

Hypothesis oracle_deterministic :
  forall p s w,
    Inv w ->
    tag_of (fst (oracle p s w)) = verdict p s /\ Inv (snd (oracle p s w)).

(** The list the reduction starts from. *)
Variable input : list A.

(** The contract of the oracle: whichever part it reports as still
    failing is classified, when tested as a whole, as the input list
    is. *)
Hypothesis oracle_contract :
  forall p s,
    (verdict p s = Some TESTRESULT_KEEPPREFIX ->
     verdict p [] = verdict input [])
    /\ (verdict p s = Some TESTRESULT_KEEPSUFFIX ->
        verdict s [] = verdict input []).

Lemma scan_reported (ps : list Probe) :
  forall (calls : nat) (w : World) (r : ScanResult) (calls' : nat)
         (w' : World),
    Inv w ->
    scan oracle ps calls w = (r, calls', w') ->
    Inv w'
    /\ match r with
       | Hit _ part => verdict part [] = verdict input []
       | _ => True
       end.
Proof.
  induction ps as [|p ps IH]; intros calls w r calls' w' HI H.
  - inversion H; subst. now split.
  - cbn [scan] in H.
    destruct (oracle_deterministic (probe_prefix p) (probe_suffix p) w HI)
      as [Htag HI1].
    destruct (oracle_contract (probe_prefix p) (probe_suffix p)) as [Hp Hs].
    destruct (oracle (probe_prefix p) (probe_suffix p) w)
      as [[[[tag p1] s1]|e] w1]; simpl in Htag, HI1.
    + destruct tag.
      * inversion H; subst. split; [exact HI1 | now apply Hp].
      * inversion H; subst. split; [exact HI1 | now apply Hs].
      * now apply IH in H.
    + inversion H; subst. now split.
Qed.

Lemma reduce_loop_reported (fuel : nat) :
  forall (st : ReductionState) (w : World),
    Inv w ->
    verdict (cur_target st) [] = verdict input [] ->
    Inv (snd (reduce_loop oracle fuel st w))
    /\ Forall (fun t => verdict t [] = verdict input [])
         (cur_target (final (fst (reduce_loop oracle fuel st w)))
          :: history (fst (reduce_loop oracle fuel st w))).
Proof.
  induction fuel as [|fuel IH]; intros st w HI Hst.
  { simpl. split; [exact HI |]. repeat constructor; exact Hst. }
  cbn [reduce_loop].
  destruct (length (cur_target st) <? 2)%nat.
  { simpl. split; [exact HI |]. repeat constructor; exact Hst. }
  destruct (scan oracle _ (invocation_count st) w) as [[r calls] w'] eqn:Hscan.
  apply scan_reported in Hscan; [| exact HI].
  destruct Hscan as [HI' Hpart].
  destruct r as [is_chunk part | | e].
  - match goal with
    | |- context [reduce_loop oracle fuel ?st' w'] =>
        destruct (IH st' w' HI' Hpart) as [HI2 Hall]
    end.
    cbn [held fst snd status final history cur_target] in *.
    split; [exact HI2 |].
    inversion Hall as [|t ts Hfinal Hrest]; subst.
    constructor; [exact Hfinal |].
    constructor; [exact Hst | exact Hrest].
  - destruct (cur_granularity st <? length (cur_target st))%nat.
    + match goal with
      | |- context [reduce_loop oracle fuel ?st' w'] =>
          destruct (IH st' w' HI' Hst) as [HI2 Hall]
      end.
      cbn [held fst snd status final history cur_target] in *.
      split; [exact HI2 |].
      inversion Hall as [|t ts Hfinal Hrest]; subst.
      constructor; [exact Hfinal |].
      constructor; [exact Hst | exact Hrest].
    + simpl. split; [exact HI' |]. repeat constructor; exact Hst.
  - simpl. split; [exact HI' |]. repeat constructor; exact Hst.
Qed.

(** C1. Anomaly preservation, under the contract of the oracle (its
    answer depends on the two lists only, and whichever part it reports
    as still failing is classified, when tested as a whole, as the input
    list is): every target list the engine holds during
    [reduce input oracle], and the list it returns, is classified, when
    tested as a whole, as the input list is. *)
Theorem reduce_preserves_anomaly (w : World) :
  Inv w -> anomaly_preserved oracle input w.
Proof.
  intros HI. unfold anomaly_preserved, reduce.
  destruct (reduce_loop_reported (rounds_bound (length input))
              (mkState input 2 0) w HI eq_refl) as [HI' Hall].
  destruct (reduce_loop oracle (rounds_bound (length input))
              (mkState input 2 0) w) as [r w'].
  cbn [fst snd] in *.
  eapply Forall_impl; [| exact Hall].
  intros t Ht.
  destruct (oracle_deterministic t [] w' HI') as [-> _].
  destruct (oracle_deterministic input [] w' HI') as [-> _].
  exact Ht.
Qed.

End AnomalyPreservation.

(** An oracle whose reported part reproduces the anomaly when tested as
    a whole honours the contract on every input that itself reproduces
    the anomaly, as the driver checks before it reduces. *)
Lemma reproducing_input_contract {A : Type}
    (verdict : list A -> list A -> option TestResult) (input : list A) :
  (forall p s,
     (verdict p s = Some TESTRESULT_KEEPPREFIX ->
      verdict p [] = Some TESTRESULT_KEEPPREFIX)
     /\ (verdict p s = Some TESTRESULT_KEEPSUFFIX ->
         verdict s [] = Some TESTRESULT_KEEPPREFIX)) ->
  verdict input [] = Some TESTRESULT_KEEPPREFIX ->
  forall p s,
    (verdict p s = Some TESTRESULT_KEEPPREFIX ->
     verdict p [] = verdict input [])
    /\ (verdict p s = Some TESTRESULT_KEEPSUFFIX ->
        verdict s [] = verdict input []).
Proof.
  intros Hsound Hin p s. rewrite Hin. apply Hsound.
Qed.

(** ** The oracle of the concrete host honours the contract *)

Lemma demo_extract (path out : string) (invert : bool) (w : World) :
  Demo.healthy w -> Demo.has_file path w ->
  exists r w',
    @SILFuncExtractorInvoker_invoke_with_functions (Demo.host 0 0)
      Demo.demo_silextract path out invert w = (Ok r, w')
    /\ Demo.healthy w' /\ Demo.has_file path w'.
Proof.
  intros [Hmain Htool] Hpath. unfold Demo.healthy, Demo.has_file in *.
  unfold SILFuncExtractorInvoker_invoke_with_functions,
    SILFuncExtractorInvoker_invoke, SILFuncExtractorInvoker_cmdline,
    sanity_check_file_exists, base_args, tool, sil_func_extractor, _get_tool,
    br_call_default, br_call, call_fingerprint, Popen_communicate,
    bind, os_access, when, print, emit, ret.
  cbn. rewrite Hmain. cbn. rewrite Hpath. cbn. rewrite Htool. cbn.
  destruct invert; cbn; eexists _, _; (split; [reflexivity |]);
    cbn [fs existsb fst]; rewrite Hmain, Htool, Hpath, !orb_true_r; auto.
Qed.

Lemma demo_test_funclist (reproduces : string -> bool) (funcs : list string)
    (w : World) :
  Demo.healthy w ->
  exists w',
    @_test_funclist (Demo.host 0 0) (Demo.demo_reducer reproduces) funcs w
    = (Ok (reproduces (String.concat "" funcs)), w')
    /\ Demo.healthy w'.
Proof.
  intros [Hmain Htool].
  rewrite _test_funclist_steps. unfold extract_and_test.
  match goal with
  | |- context [bind _ _ ?w1] => set (w1' := w1)
  end.
  assert (H1 : Demo.healthy w1').
  { unfold Demo.healthy, Demo.has_file in *. subst w1'. cbn [fs existsb fst].
    rewrite Hmain, Htool, !orb_true_r. auto. }
  assert (Hp : Demo.has_file
                 (@funclist_path (Demo.host 0 0)
                    (Demo.demo_reducer reproduces) funcs) w1').
  { unfold Demo.has_file. subst w1'. cbn [fs existsb fst].
    now rewrite String.eqb_refl. }
  destruct (demo_extract _
              (@outfile_of (Demo.host 0 0) (Demo.demo_reducer reproduces) funcs)
              false w1' H1 Hp) as (r1 & w2 & E1 & H2 & Hp2).
  destruct (demo_extract _
              (@outfile_invert_of (Demo.host 0 0)
                 (Demo.demo_reducer reproduces) funcs)
              true w2 H2 Hp2) as (r2 & w3 & E2 & H3 & _).
  cbn [silextract Demo.demo_reducer] in *.
  rewrite (bind_ok _ _ _ _ _ E1), (bind_ok _ _ _ _ _ E2).
  exists w3. split; [| exact H3].
  rewrite (@get_funclist_hash_concat (Demo.host 0 0)). reflexivity.
Qed.

Lemma demo_oracle_deterministic (reproduces : string -> bool)
    (p s : list string) (w : World) :
  Demo.healthy w ->
  tag_of (fst (@run_test (Demo.host 0 0) (Demo.demo_reducer reproduces) p s w))
  = Demo.list_verdict reproduces p s
  /\ Demo.healthy
       (snd (@run_test (Demo.host 0 0) (Demo.demo_reducer reproduces) p s w)).
Proof.
  intros Hw. unfold run_test, Demo.list_verdict, bind, and_then.
  destruct (0 <? length s)%nat; cbn [andb ret].
  - destruct (demo_test_funclist reproduces s w Hw) as (w1 & -> & H1).
    destruct (reproduces (String.concat "" s)); [now split |].
    destruct (0 <? length p)%nat; cbn [andb ret]; [| now split].
    destruct (demo_test_funclist reproduces p w1 H1) as (w2 & -> & H2).
    destruct (reproduces (String.concat "" p)); now split.
  - destruct (0 <? length p)%nat; cbn [andb ret]; [| now split].
    destruct (demo_test_funclist reproduces p w Hw) as (w2 & -> & H2).
    destruct (reproduces (String.concat "" p)); now split.
Qed.

Lemma demo_oracle_sound (reproduces : string -> bool) (p s : list string) :
  (Demo.list_verdict reproduces p s = Some TESTRESULT_KEEPPREFIX ->
   Demo.list_verdict reproduces p [] = Some TESTRESULT_KEEPPREFIX)
  /\ (Demo.list_verdict reproduces p s = Some TESTRESULT_KEEPSUFFIX ->
      Demo.list_verdict reproduces s [] = Some TESTRESULT_KEEPPREFIX).
Proof.
  unfold Demo.list_verdict.
  change (0 <? length (@nil string))%nat with false. cbn [andb].
  destruct ((0 <? length s)%nat && reproduces (String.concat "" s))%bool,
           ((0 <? length p)%nat && reproduces (String.concat "" p))%bool;
    split; intros H; try discriminate; reflexivity.
Qed.

Lemma C1_witness :
  let oracle := @run_test (Demo.host 0 0)
                  (Demo.demo_reducer Demo.mentions_C) in
  Demo.healthy Demo.w0
  /\ anomaly_preserved oracle ["A"; "B"; "C"; "D"] Demo.w0.
Proof.
  intros oracle.
  assert (Hw : Demo.healthy Demo.w0) by (split; reflexivity).
  split; [exact Hw |].
  exact (reduce_preserves_anomaly oracle Demo.healthy
           (Demo.list_verdict Demo.mentions_C)
           (demo_oracle_deterministic Demo.mentions_C)
           ["A"; "B"; "C"; "D"]
           (reproducing_input_contract
              (Demo.list_verdict Demo.mentions_C) ["A"; "B"; "C"; "D"]
              (demo_oracle_sound Demo.mentions_C) eq_refl)
           Demo.w0 Hw).
Defined.

(** ** The scenarios of the specification, run on the concrete host *)

(** Scenario A: the anomaly shows iff the tested list contains [C]; the
    reduction of [[A; B; C; D]] converges to [[C]]. *)
Example scenario_A :
  let r := fst (reduce (@run_test (Demo.host 0 0)
                          (Demo.demo_reducer Demo.mentions_C))
                  ["A"; "B"; "C"; "D"] Demo.w0) in
  status r = Converged /\ cur_target (final r) = ["C"]
  /\ history r = [["A"; "B"; "C"; "D"]; ["C"; "D"]; ["C"]].
Proof. vm_compute. repeat split. Qed.

(** Scenario B: no sublist reproduces; the engine keeps [[A; B]], and
    [reduce_list] reports that it could not reduce. *)
Example scenario_B :
  let self := {| target_list := ["A"; "B"];
                 silextract := Demo.demo_silextract;
                 tester := Demo.demo_tester (fun _ => false) |} in
  let r := fst (reduce (@run_test (Demo.host 0 0) self) ["A"; "B"] Demo.w0) in
  status r = Converged /\ cur_target (final r) = ["A"; "B"]
  /\ option_map (fun x => (fst x, target_list (snd x)))
       (match fst (@reduce_list (Demo.host 0 0) self Demo.w0) with
        | Ok x => Some x
        | Raise _ => None
        end)
     = Some (false, ["A"; "B"]).
Proof. vm_compute. repeat split. Qed.

(** A failing base case on this module: the driver stops on the first
    name it cannot resolve. *)
Example failing_base_case_raises_NameError :
  fst (@invoke_function_bug_reducer (Demo.host 1 0) Demo.no_globals
         Demo.demo_args Demo.w0)
  = Raise (NameError "OptimizerTester").
Proof. vm_compute. reflexivity. Qed.

(** * Further properties of the tools *)

Lemma extend_if_set_app (a b : list string) (argname : string)
    (v : option string) :
  extend_if_set (a ++ b) argname v = (a ++ extend_if_set b argname v)%list.
Proof. destruct v; simpl; [now rewrite app_assoc | reflexivity]. Qed.

Lemma events_add_add (w : World) (f1 f2 : FS) (e1 e2 : list event) :
  add_events (add_events w f1 e1) f2 e2 = add_events w f2 (e1 ++ e2).
Proof. unfold add_events. simpl. now rewrite app_assoc. Qed.

Lemma add_events_nil (w : World) : add_events w (fs w) [] = w.
Proof. unfold add_events. rewrite app_nil_r. now destruct w. Qed.

Section ToolRuns.
Context {platform : Platform}.

Lemma sanity_check_present (f : string) (w : World) :
  accessible f (fs w) = true -> sanity_check_file_exists f w = (Ok tt, w).
Proof.
  intros H. unfold sanity_check_file_exists, bind, os_access.
  unfold accessible in H. now rewrite H.
Qed.

Lemma sanity_check_missing (f : string) (w : World) :
  accessible f (fs w) = false ->
  sanity_check_file_exists f w
  = (Raise (RuntimeError ("Error! Could not find file: " ++ f)), w).
Proof.
  intros H. unfold sanity_check_file_exists, bind, os_access.
  unfold accessible in H. now rewrite H.
Qed.

Lemma tool_present (self : Invoker) (w : World) :
  accessible (tool_path self) (fs w) = true ->
  tool self w = (Ok (tool_path self), w).
Proof.
  unfold tool_path, accessible, tool, sil_opt, sil_func_extractor, sil_nm,
    sil_llvm_gen, _get_tool, bind, os_access.
  destruct (inv_class self); cbn [tool_name]; intros H; now rewrite H.
Qed.

Lemma tool_missing (self : Invoker) (w : World) :
  accessible (tool_path self) (fs w) = false ->
  tool self w
  = (Raise (RuntimeError ("Error! " ++ tool_name (inv_class self)
                          ++ " does not exist at: " ++ tool_path self)), w).
Proof.
  unfold tool_path, accessible, tool, sil_opt, sil_func_extractor, sil_nm,
    sil_llvm_gen, _get_tool, bind, os_access.
  destruct (inv_class self); cbn [tool_name]; intros H; now rewrite H.
Qed.

Lemma base_args_present (self : Invoker) (emit_sib emit_obj : bool)
    (w : World) :
  accessible (tool_path self) (fs w) = true ->
  base_args self emit_sib emit_obj w
  = (Ok (tool_path self :: option_args (config self)
         ++ (if emit_sib then ["-emit-sib"] else []))%list, w).
Proof.
  intros H. unfold base_args. rewrite (bind_ok _ _ _ _ _ (tool_present _ _ H)).
  unfold ret, option_args.
  change [tool_path self] with ([tool_path self] ++ [])%list.
  rewrite !extend_if_set_app.
  destruct emit_sib; [| now rewrite app_nil_r].
  now rewrite <- app_assoc.
Qed.

Lemma base_args_missing (self : Invoker) (emit_sib emit_obj : bool)
    (w : World) :
  accessible (tool_path self) (fs w) = false ->
  base_args self emit_sib emit_obj w
  = (Raise (RuntimeError ("Error! " ++ tool_name (inv_class self)
                          ++ " does not exist at: " ++ tool_path self)), w).
Proof.
  intros H. unfold base_args.
  now rewrite (bind_raise _ _ _ _ _ (tool_missing _ _ H)).
Qed.

Lemma hash_updates_digest_input (p : ProcOut) :
  hash_update
    (hash_update
       (if (proc_exit p =? 0)%Z then hash_update hash_new "0"
        else hash_update hash_new "1") (proc_stdout p))
    (proc_stderr p) = digest_input p.
Proof.
  unfold digest_input, hash_update, hash_new.
  destruct (proc_exit p =? 0)%Z; reflexivity.
Qed.

Lemma br_call_run (args : list string) (echo : bool) (w : World)
    (p : ProcOut) (files : FS) :
  popen args (fs w) = Some (p, files) ->
  br_call args false echo w
  = (Ok {| exit_code := proc_exit p;
           fingerprint := sha256_hexdigest (digest_input p) |},
     add_events w files (br_call_events echo args p)).
Proof.
  intros H.
  unfold br_call, call_fingerprint, Popen_communicate, bind, when, print,
    emit, ret, add_events, br_call_events.
  destruct echo; simpl; rewrite H; simpl;
    rewrite hash_updates_digest_input; repeat rewrite <- app_assoc;
    reflexivity.
Qed.

Lemma br_call_launch_failure (args : list string) (echo : bool) (w : World) :
  popen args (fs w) = None ->
  br_call args false echo w
  = (Raise (OSError args),
     add_events w (fs w)
       (if echo then [EvPrint ("BRCALL: " ++ join_spaces args)] else [])).
Proof.
  intros H.
  unfold br_call, call_fingerprint, Popen_communicate, bind, when, print,
    emit, ret, add_events.
  destruct echo; simpl; rewrite H; [reflexivity |].
  rewrite app_nil_r. now destruct w.
Qed.

(** X1. A call of [br_call] that is not a dry run launches the given
    command exactly once, and nothing else; it returns the exit code of
    the process and always echoes its standard error and then its
    standard output, after the command line when [echo] is set.  When
    the process cannot be launched the error propagates: no process is
    recorded, the file system is unchanged, and the only trace left is
    the command line, echoed when [echo] is set. *)
Theorem br_call_launches_once (args : list string) (echo : bool) (w : World) :
  (forall p files,
     popen args (fs w) = Some (p, files) ->
     exists r,
       fst (br_call args false echo w) = Ok r
       /\ exit_code r = proc_exit p
       /\ snd (br_call args false echo w)
          = add_events w files (br_call_events echo args p)
       /\ spawned (events (snd (br_call args false echo w)))
          = (spawned (events w) ++ [args])%list)
  /\ (popen args (fs w) = None ->
      fst (br_call args false echo w) = Raise (OSError args)
      /\ snd (br_call args false echo w)
         = add_events w (fs w)
             (if echo then [EvPrint ("BRCALL: " ++ join_spaces args)]
              else [])
      /\ spawned (events (snd (br_call args false echo w)))
         = spawned (events w)
      /\ fs (snd (br_call args false echo w)) = fs w).
Proof.
  split.
  - intros p files H. rewrite (br_call_run _ _ _ _ _ H).
    eexists. repeat split. cbn [snd add_events events].
    rewrite spawned_app. f_equal. unfold br_call_events.
    rewrite spawned_app. destruct echo; reflexivity.
  - intros H. rewrite (br_call_launch_failure _ _ _ H).
    repeat split. cbn [snd add_events events]. rewrite spawned_app.
    destruct echo; simpl; now rewrite app_nil_r.
Qed.

(** X2. The fingerprint does not tell standard output from standard
    error: two runs of the same exit-code class whose outputs agree once
    standard output and standard error are concatenated get the same
    fingerprint, however the bytes are split over the two streams, and
    whatever is echoed. *)
Theorem call_fingerprint_ignores_stream_split
    (args1 args2 : list string) (es1 eo1 es2 eo2 : bool) (w1 w2 : World)
    (p1 p2 : ProcOut) (files1 files2 : FS) :
  popen args1 (fs w1) = Some (p1, files1) ->
  popen args2 (fs w2) = Some (p2, files2) ->
  (proc_exit p1 =? 0)%Z = (proc_exit p2 =? 0)%Z ->
  proc_stdout p1 ++ proc_stderr p1 = proc_stdout p2 ++ proc_stderr p2 ->
  exists r1 r2,
    fst (call_fingerprint args1 es1 eo1 w1) = Ok r1
    /\ fst (call_fingerprint args2 es2 eo2 w2) = Ok r2
    /\ fingerprint r1 = fingerprint r2.
Proof.
  intros H1 H2 Hc Hcat.
  rewrite (call_fingerprint_ok _ es1 eo1 _ _ _ H1),
          (call_fingerprint_ok _ es2 eo2 _ _ _ H2).
  eexists _, _. repeat split. cbn [fingerprint].
  unfold digest_input. now rewrite Hc, Hcat.
Qed.

End ToolRuns.

Lemma X1_witness :
  (exists r,
     fst (@br_call (Demo2.host [] 0 0) ["/build/bin/sil-opt"; "main"]
            false true Demo2.w0) = Ok r
     /\ exit_code r = 0%Z
     /\ spawned (events (snd (@br_call (Demo2.host [] 0 0)
                                ["/build/bin/sil-opt"; "main"]
                                false true Demo2.w0)))
        = [["/build/bin/sil-opt"; "main"]])
  /\ @br_call (Demo2.host [] 0 0) ["/missing"] false true Demo2.w0
     = (Raise (OSError ["/missing"]),
        add_events Demo2.w0 (fs Demo2.w0) [EvPrint "BRCALL: /missing"])
  /\ @br_call (Demo2.host [] 0 0) ["/missing"] false false Demo2.w0
     = (Raise (OSError ["/missing"]), add_events Demo2.w0 (fs Demo2.w0) []).
Proof.
  refine (conj _ (conj _ _)).
  - destruct (@br_call_launches_once (Demo2.host [] 0 0)
                ["/build/bin/sil-opt"; "main"] true Demo2.w0) as [K _].
    destruct (K (mkProcOut 0 "" "") (fs Demo2.w0) eq_refl)
      as (r & Hr & He & _ & Hs).
    exists r. repeat split; assumption.
  - destruct (@br_call_launches_once (Demo2.host [] 0 0)
                ["/missing"] true Demo2.w0) as [_ K].
    destruct (K eq_refl) as (Hr & Hw & _).
    rewrite (surjective_pairing (br_call _ _ _ _)), Hr, Hw. reflexivity.
  - destruct (@br_call_launches_once (Demo2.host [] 0 0)
                ["/missing"] false Demo2.w0) as [_ K].
    destruct (K eq_refl) as (Hr & Hw & _).
    rewrite (surjective_pairing (br_call _ _ _ _)), Hr, Hw. reflexivity.
Defined.

Lemma X2_witness :
  let H := Demo2.host [("/a", mkProcOut 0 "ab" ""); ("/b", mkProcOut 0 "a" "b")]
             0 0 in
  exists r1 r2,
    fst (@call_fingerprint H ["/a"] true true Demo2.w0) = Ok r1
    /\ fst (@call_fingerprint H ["/b"] true true Demo2.w0) = Ok r2
    /\ fingerprint r1 = fingerprint r2.
Proof.
  intros H.
  exact (@call_fingerprint_ignores_stream_split H ["/a"] ["/b"]
           true true true true Demo2.w0 Demo2.w0
           (mkProcOut 0 "ab" "") (mkProcOut 0 "a" "b")
           (fs Demo2.w0) (fs Demo2.w0) eq_refl eq_refl eq_refl eq_refl).
Defined.

Section CommandLines.
Context {platform : Platform}.

Lemma SILOptInvoker_cmdline_ok (self : Invoker) (input : string)
    (passes : list string) (emit_sib : bool) (out : string) (w : World) :
  accessible (tool_path self) (fs w) = true ->
  accessible input (fs w) = true ->
  SILOptInvoker_cmdline self input (Some passes) emit_sib out w
  = (Ok (opt_cmd self input passes emit_sib out), w).
Proof.
  intros Ht Hi. unfold SILOptInvoker_cmdline.
  rewrite (bind_ok _ _ _ _ _ (base_args_present _ _ _ _ Ht)).
  rewrite (bind_ok _ _ _ _ _ (sanity_check_present _ _ Hi)).
  unfold extend_passes, ret, opt_cmd. simpl.
  now rewrite <- !app_assoc.
Qed.

Lemma SILOptInvoker_invoke_ok (self : Invoker) (input : string)
    (passes : list string) (emit_sib : bool) (out : string) (w : World)
    (p : ProcOut) (files : FS) :
  accessible (tool_path self) (fs w) = true ->
  accessible input (fs w) = true ->
  popen (opt_cmd self input passes emit_sib out) (fs w) = Some (p, files) ->
  SILOptInvoker_invoke self input (Some passes) emit_sib out w
  = (Ok {| exit_code := proc_exit p;
           fingerprint := sha256_hexdigest (digest_input p) |},
     add_events w files
       (br_call_events true (opt_cmd self input passes emit_sib out) p)).
Proof.
  intros Ht Hi Hp. unfold SILOptInvoker_invoke.
  rewrite (bind_ok _ _ _ _ _ (SILOptInvoker_cmdline_ok _ _ _ _ _ _ Ht Hi)).
  exact (br_call_run _ _ _ _ _ Hp).
Qed.

(** X3. Building the command line of [sil-opt] has no effect on the
    world.  The tool is looked up first: a missing tool is reported even
    when the input file is missing too; then the input file is checked;
    then a pass list of [None] is refused.  Otherwise the command line
    is the tool, the configured options, [-emit-sib] when asked for, the
    input, [-o] and the output, the extra arguments and the passes, in
    this order. *)
Theorem SILOptInvoker_cmdline_layout (self : Invoker) (input : string)
    (passes : option (list string)) (emit_sib : bool) (out : string)
    (w : World) :
  snd (SILOptInvoker_cmdline self input passes emit_sib out w) = w
  /\ (accessible (tool_path self) (fs w) = false ->
      fst (SILOptInvoker_cmdline self input passes emit_sib out w)
      = Raise (RuntimeError ("Error! " ++ tool_name (inv_class self)
                             ++ " does not exist at: " ++ tool_path self)))
  /\ (accessible (tool_path self) (fs w) = true ->
      accessible input (fs w) = false ->
      fst (SILOptInvoker_cmdline self input passes emit_sib out w)
      = Raise (RuntimeError ("Error! Could not find file: " ++ input)))
  /\ (accessible (tool_path self) (fs w) = true ->
      accessible input (fs w) = true ->
      fst (SILOptInvoker_cmdline self input passes emit_sib out w)
      = match passes with
        | Some ps => Ok (opt_cmd self input ps emit_sib out)
        | None => Raise (TypeError "'NoneType' object is not iterable")
        end).
Proof.
  destruct (accessible (tool_path self) (fs w)) eqn:Ht.
  - destruct (accessible input (fs w)) eqn:Hi.
    + destruct passes as [ps|].
      * rewrite (SILOptInvoker_cmdline_ok _ _ _ _ _ _ Ht Hi).
        repeat split; intros; congruence.
      * unfold SILOptInvoker_cmdline.
        rewrite (bind_ok _ _ _ _ _ (base_args_present _ _ _ _ Ht)).
        rewrite (bind_ok _ _ _ _ _ (sanity_check_present _ _ Hi)).
        repeat split; intros; congruence.
    + unfold SILOptInvoker_cmdline.
      rewrite (bind_ok _ _ _ _ _ (base_args_present _ _ _ _ Ht)).
      rewrite (bind_raise _ _ _ _ _ (sanity_check_missing _ _ Hi)).
      repeat split; intros; congruence.
  - unfold SILOptInvoker_cmdline.
    rewrite (bind_raise _ _ _ _ _ (base_args_missing _ _ _ _ Ht)).
    repeat split; intros; congruence.
Qed.

(** X4. The reproduction command line returned by
    [cmdline_with_passlist] is the command that [invoke_with_passlist]
    runs, without [-emit-sib] and with the output [-]: with the tool and
    the input file present, the invocation launches exactly
    [opt_cmd ... true output] and the reproduction line is
    [opt_cmd ... false "-"], for the same input, options, extra
    arguments and passes. *)
Theorem cmdline_with_passlist_matches_invocation (self : Invoker)
    (passes : list string) (out : string) (w : World) (p : ProcOut)
    (files : FS) :
  accessible (tool_path self) (fs w) = true ->
  accessible (input_file self) (fs w) = true ->
  popen (opt_cmd self (input_file self) passes true out) (fs w)
  = Some (p, files) ->
  spawned (events (snd (SILOptInvoker_invoke_with_passlist self (Some passes)
                          out w)))
  = (spawned (events w)
     ++ [opt_cmd self (input_file self) passes true out])%list
  /\ exit_code_of_res (fst (SILOptInvoker_invoke_with_passlist self
                              (Some passes) out w)) = Some (proc_exit p)
  /\ SILOptInvoker_cmdline_with_passlist self (Some passes) w
     = (Ok (opt_cmd self (input_file self) passes false "-"), w).
Proof.
  intros Ht Hi Hp. unfold SILOptInvoker_invoke_with_passlist.
  rewrite (SILOptInvoker_invoke_ok _ _ _ _ _ _ _ _ Ht Hi Hp).
  cbn [fst snd add_events events]. rewrite spawned_app.
  repeat split.
  exact (SILOptInvoker_cmdline_ok _ _ _ _ _ _ Ht Hi).
Qed.

End CommandLines.

Lemma X3_witness :
  fst (SILOptInvoker_cmdline Demo2.opt "absent"
         (Some ["-p"]) true "out" Demo2.bare)
  = Raise (RuntimeError
             "Error! sil-opt does not exist at: /build/bin/sil-opt")
  /\ fst (SILOptInvoker_cmdline Demo2.opt "absent"
            (Some ["-p"]) true "out" Demo2.w0)
     = Raise (RuntimeError "Error! Could not find file: absent")
  /\ fst (SILOptInvoker_cmdline Demo2.opt "main"
            None true "out" Demo2.w0)
     = Raise (TypeError "'NoneType' object is not iterable")
  /\ fst (SILOptInvoker_cmdline Demo2.opt "main"
            (Some ["-p"]) true "out" Demo2.w0)
     = Ok ["/build/bin/sil-opt"; "-emit-sib"; "main"; "-o"; "out"; "-extra";
           "-p"].
Proof.
  refine (conj _ (conj _ (conj _ _))).
  - destruct (SILOptInvoker_cmdline_layout Demo2.opt
                "absent" (Some ["-p"]) true "out" Demo2.bare)
      as (_ & K & _).
    exact (K eq_refl).
  - destruct (SILOptInvoker_cmdline_layout Demo2.opt
                "absent" (Some ["-p"]) true "out" Demo2.w0)
      as (_ & _ & K & _).
    exact (K eq_refl eq_refl).
  - destruct (SILOptInvoker_cmdline_layout Demo2.opt
                "main" None true "out" Demo2.w0)
      as (_ & _ & _ & K).
    exact (K eq_refl eq_refl).
  - destruct (SILOptInvoker_cmdline_layout Demo2.opt
                "main" (Some ["-p"]) true "out" Demo2.w0)
      as (_ & _ & _ & K).
    exact (K eq_refl eq_refl).
Defined.

Lemma X4_witness :
  spawned (events (snd (@SILOptInvoker_invoke_with_passlist
                          (Demo2.host [] 0 0) Demo2.opt (Some ["-p"]) "out"
                          Demo2.w0)))
  = [["/build/bin/sil-opt"; "-emit-sib"; "main"; "-o"; "out"; "-extra"; "-p"]]
  /\ fst (SILOptInvoker_cmdline_with_passlist Demo2.opt
            (Some ["-p"]) Demo2.w0)
     = Ok ["/build/bin/sil-opt"; "main"; "-o"; "-"; "-extra"; "-p"].
Proof.
  destruct (@cmdline_with_passlist_matches_invocation (Demo2.host [] 0 0)
              Demo2.opt ["-p"] "out" Demo2.w0 (mkProcOut 0 "" "")
              (("out", "") :: fs Demo2.w0) eq_refl eq_refl eq_refl)
    as (Hs & _ & Hc).
  split; [exact Hs | now rewrite Hc].
Defined.

Section Construction.
Context {platform : Platform}.

Lemma check_call_ok (cmd : list string) (w : World) (p : ProcOut)
    (files : FS) :
  popen cmd (fs w) = Some (p, files) ->
  proc_exit p = 0%Z ->
  check_call cmd w = (Ok tt, add_events w files [EvSpawn cmd]).
Proof.
  intros H Hz. unfold check_call, bind, Popen_communicate.
  now rewrite H, Hz.
Qed.

Lemma check_call_failed (cmd : list string) (w : World) (p : ProcOut)
    (files : FS) :
  popen cmd (fs w) = Some (p, files) ->
  proc_exit p <> 0%Z ->
  check_call cmd w
  = (Raise (CalledProcessError (proc_exit p) cmd),
     add_events w files [EvSpawn cmd]).
Proof.
  intros H Hz. unfold check_call, bind, Popen_communicate.
  apply Z.eqb_neq in Hz. now rewrite H, Hz.
Qed.

Lemma constant_input_init_ok (cls : invoker_class)
    (config : SILToolInvokerConfig) (tools : SwiftTools) (input : string)
    (extra : option (list string)) (w : World) (p : ProcOut) (files : FS) :
  popen ["mkdir"; "-p"; work_dir config] (fs w) = Some (p, files) ->
  proc_exit p = 0%Z ->
  accessible input files = true ->
  SILConstantInputToolInvoker_init cls config tools input extra w
  = (Ok (constant_input_object cls config tools input extra),
     add_events w files [EvSpawn ["mkdir"; "-p"; work_dir config]]).
Proof.
  intros H Hz Hi. unfold SILConstantInputToolInvoker_init.
  rewrite (bind_ok _ _ _ _ _ (check_call_ok _ _ _ _ H Hz)).
  unfold constant_input_object.
  destruct (splitext (basename input)) as [base ext].
  now rewrite (bind_ok _ _ _ _ _
                 (sanity_check_present input
                    (add_events w files
                       [EvSpawn ["mkdir"; "-p"; work_dir config]]) Hi)).
Qed.

(** X5. Constructing a [SILOptInvoker] creates the work directory and
    then converts the input: with [mkdir] succeeding and the input file
    and [sil-opt] present, it launches [mkdir -p work_dir] and then
    [sil-opt] with [-emit-sib] and no pass on the given input, writing
    to [<work_dir>/<stem>_initial.sib], which becomes the invoker's
    input file.  The exit code of the conversion is not looked at: the
    constructor returns the object whatever it is. *)
Theorem SILOptInvoker_init_converts_input (config : SILToolInvokerConfig)
    (tools : SwiftTools) (input : string) (extra : option (list string))
    (w : World) (p0 p1 : ProcOut) (files1 files2 : FS) :
  let self := opt_invoker_object config tools input extra in
  let mkdir := ["mkdir"; "-p"; work_dir config] in
  let convert := opt_cmd self input [] true (input_file self) in
  popen mkdir (fs w) = Some (p0, files1) ->
  proc_exit p0 = 0%Z ->
  accessible input files1 = true ->
  accessible (tool_path self) files1 = true ->
  popen convert files1 = Some (p1, files2) ->
  SILOptInvoker_init config tools input extra w
  = (Ok self,
     add_events w files2 (EvSpawn mkdir :: br_call_events true convert p1))
  /\ input_file self
     = os_path_join (work_dir config)
         ((fst (splitext (basename input)) ++ "_initial") ++ ".sib")
  /\ spawned (events (snd (SILOptInvoker_init config tools input extra w)))
     = (spawned (events w) ++ [mkdir; convert])%list.
Proof.
  intros self mkdir convert Hmk Hz Hi Ht Hconv.
  assert (E : SILOptInvoker_init config tools input extra w
              = (Ok self,
                 add_events w files2
                   (EvSpawn mkdir :: br_call_events true convert p1))).
  { unfold SILOptInvoker_init.
    rewrite (bind_ok _ _ _ _ _
               (constant_input_init_ok SILOptInvoker _ _ _ _ _ _ _ Hmk Hz Hi)).
    fold (opt_invoker_object config tools input extra). fold self.
    assert (Hrun := SILOptInvoker_invoke_ok self input [] true
                      (input_file self) (add_events w files1 [EvSpawn mkdir])
                      p1 files2 Ht Hi Hconv).
    rewrite (bind_ok _ _ _ _ _ Hrun).
    unfold ret. now rewrite events_add_add. }
  split; [exact E |]. split; [reflexivity |].
  rewrite E. cbn [snd add_events events]. rewrite spawned_app.
  reflexivity.
Qed.

(** X6. When they fail, the constructors of the invokers that take an
    input file stop early.  If [mkdir -p work_dir] exits with a nonzero
    status, [CalledProcessError] is raised and the input file is not
    looked at; if the input file is missing, [RuntimeError] is raised
    after the work directory has been created.  In both cases the
    constructor of [SILOptInvoker] has run no [sil-opt]. *)
Theorem SILOptInvoker_init_fails_early (config : SILToolInvokerConfig)
    (tools : SwiftTools) (input : string) (extra : option (list string))
    (w : World) (p0 : ProcOut) (files1 : FS) :
  let mkdir := ["mkdir"; "-p"; work_dir config] in
  popen mkdir (fs w) = Some (p0, files1) ->
  (proc_exit p0 <> 0%Z ->
   SILOptInvoker_init config tools input extra w
   = (Raise (CalledProcessError (proc_exit p0) mkdir),
      add_events w files1 [EvSpawn mkdir]))
  /\ (proc_exit p0 = 0%Z ->
      accessible input files1 = false ->
      SILOptInvoker_init config tools input extra w
      = (Raise (RuntimeError ("Error! Could not find file: " ++ input)),
         add_events w files1 [EvSpawn mkdir])).
Proof.
  intros mkdir Hmk. unfold SILOptInvoker_init, SILConstantInputToolInvoker_init.
  split.
  - intros Hne.
    rewrite (bind_raise _ _ _ _ _
               (bind_raise _ _ _ _ _ (check_call_failed _ _ _ _ Hmk Hne))).
    reflexivity.
  - intros Hz Hi.
    apply bind_raise.
    rewrite (bind_ok _ _ _ _ _ (check_call_ok _ _ _ _ Hmk Hz)).
    destruct (splitext (basename input)) as [base ext].
    now rewrite (bind_raise _ _ _ _ _
                   (sanity_check_missing input
                      (add_events w files1 [EvSpawn mkdir]) Hi)).
Qed.

End Construction.

Lemma X5_witness :
  let H := Demo2.host [("/build/bin/sil-opt", mkProcOut 1 "" "")] 0 0 in
  exists self w',
    @SILOptInvoker_init H Demo.demo_config Demo2.build_tools "main" None
      Demo2.w0 = (Ok self, w')
    /\ input_file self = "/work/main_initial.sib"
    /\ spawned (events w')
       = [["mkdir"; "-p"; "/work"];
          ["/build/bin/sil-opt"; "-emit-sib"; "main"; "-o";
           "/work/main_initial.sib"]].
Proof.
  intros H.
  destruct (@SILOptInvoker_init_converts_input H Demo.demo_config
              Demo2.build_tools "main" None Demo2.w0
              (mkProcOut 0 "" "") (mkProcOut 1 "" "")
              (fs Demo2.w0) (fs Demo2.w0)
              eq_refl eq_refl eq_refl eq_refl eq_refl)
    as (E & Hin & Hs).
  eexists _, _. split; [exact E |]. split; [exact Hin |].
  rewrite E in Hs. exact Hs.
Defined.

Lemma X6_witness :
  fst (@SILOptInvoker_init (Demo2.host [("mkdir", mkProcOut 1 "" "")] 0 0)
         Demo.demo_config Demo2.build_tools "main" None Demo2.w0)
  = Raise (CalledProcessError 1 ["mkdir"; "-p"; "/work"])
  /\ @SILOptInvoker_init (Demo2.host [] 0 0)
       Demo.demo_config Demo2.build_tools "absent" None Demo2.w0
     = (Raise (RuntimeError "Error! Could not find file: absent"),
        add_events Demo2.w0 (fs Demo2.w0) [EvSpawn ["mkdir"; "-p"; "/work"]]).
Proof.
  split.
  - destruct (@SILOptInvoker_init_fails_early
                (Demo2.host [("mkdir", mkProcOut 1 "" "")] 0 0)
                Demo.demo_config Demo2.build_tools "main" None Demo2.w0
                (mkProcOut 1 "" "") (fs Demo2.w0) eq_refl) as [K _].
    rewrite K; [reflexivity | discriminate].
  - destruct (@SILOptInvoker_init_fails_early (Demo2.host [] 0 0)
                Demo.demo_config Demo2.build_tools "absent" None Demo2.w0
                (mkProcOut 0 "" "") (fs Demo2.w0) eq_refl) as [_ K].
    exact (K eq_refl eq_refl).
Defined.

(** ** Splitting into lines and fields *)

Lemma lacks_append (c : ascii) (a b : string) :
  lacks c (a ++ b) = (lacks c a && lacks c b)%bool.
Proof.
  induction a as [|x a IH]; simpl; [reflexivity |].
  now rewrite IH, andb_assoc.
Qed.

Lemma split_on_line (sep : ascii) (a rest : string) :
  lacks sep a = true ->
  split_on sep (a ++ String sep rest) = a :: split_on sep rest.
Proof.
  induction a as [|x a IH]; simpl; intros H.
  - now rewrite Ascii.eqb_refl.
  - apply andb_prop in H. destruct H as [Hx Ha].
    apply negb_true_iff in Hx. rewrite Hx, (IH Ha). reflexivity.
Qed.

Lemma split_on_last (sep : ascii) (a : string) :
  lacks sep a = true -> split_on sep a = [a].
Proof.
  induction a as [|x a IH]; simpl; intros H; [reflexivity |].
  apply andb_prop in H. destruct H as [Hx Ha].
  apply negb_true_iff in Hx. rewrite Hx, (IH Ha). reflexivity.
Qed.

Lemma split_on_nonempty (sep : ascii) (s : string) : split_on sep s <> [].
Proof.
  induction s as [|x s IH]; simpl; [discriminate |].
  destruct (Ascii.eqb x sep); [discriminate |].
  destruct (split_on sep s); [congruence | discriminate].
Qed.

Lemma symbol_line_lacks_newline (sym : string * string) :
  well_formed_symbol sym -> lacks newline (symbol_line sym) = true.
Proof.
  intros (_ & Hk & _ & Hn). unfold symbol_line.
  rewrite lacks_append, Hk. simpl. exact Hn.
Qed.

Lemma split_symbol_line (sym : string * string) :
  well_formed_symbol sym ->
  split_on " "%char (symbol_line sym) = [fst sym; snd sym].
Proof.
  intros (Hk & _ & Hn & _). unfold symbol_line.
  change (" " ++ snd sym) with (String " "%char (snd sym)).
  now rewrite (split_on_line _ _ _ Hk), (split_on_last _ _ Hn).
Qed.

Lemma split_listing (syms : list (string * string)) (rest : string) :
  Forall well_formed_symbol syms ->
  split_on newline (format_symbols syms ++ rest)
  = (map symbol_line syms ++ split_on newline rest)%list.
Proof.
  induction 1 as [|sym syms Hsym _ IH]; [reflexivity |].
  cbn [format_symbols map app]. rewrite append_assoc.
  change (String newline (format_symbols syms) ++ rest)
    with (String newline (format_symbols syms ++ rest)).
  rewrite (split_on_line _ _ _ (symbol_line_lacks_newline _ Hsym)), IH.
  reflexivity.
Qed.

Lemma symbol_tuples_listing (syms : list (string * string)) (w : World) :
  Forall well_formed_symbol syms ->
  symbol_tuples (map symbol_line syms) w = (Ok syms, w).
Proof.
  induction 1 as [|sym syms Hsym _ IH]; [reflexivity |].
  cbn [map symbol_tuples]. rewrite (split_symbol_line _ Hsym).
  rewrite (bind_ok _ _ _ _ _ IH). now destruct sym.
Qed.

Lemma symbol_tuples_malformed (syms : list (string * string))
    (bad : string) (more : list string) (w : World) :
  Forall well_formed_symbol syms ->
  length (split_on " "%char bad) <> 2 ->
  symbol_tuples (map symbol_line syms ++ bad :: more) w
  = (Raise AssertionError, w).
Proof.
  intros Hsyms Hbad.
  induction Hsyms as [|sym syms Hsym _ IH].
  - cbn [map app symbol_tuples].
    destruct (split_on " "%char bad) as [|a [|b [|c l]]];
      try reflexivity. now simpl in Hbad.
  - cbn [map app symbol_tuples]. rewrite (split_symbol_line _ Hsym).
    now rewrite (bind_raise _ _ _ _ _ IH).
Qed.

Section SymbolListing.
Context {platform : Platform}.

Lemma check_output_ok (cmd : list string) (w : World) (p : ProcOut)
    (files : FS) :
  popen cmd (fs w) = Some (p, files) ->
  proc_exit p = 0%Z ->
  check_output cmd w = (Ok (proc_stdout p), add_events w files [EvSpawn cmd]).
Proof.
  intros H Hz. unfold check_output, bind, Popen_communicate.
  now rewrite H, Hz.
Qed.

Lemma get_symbols_steps (self : Invoker) (input : string) (w : World)
    (p : ProcOut) (files : FS) :
  accessible input (fs w) = true ->
  accessible (tool_path self) (fs w) = true ->
  popen (nm_cmd self input) (fs w) = Some (p, files) ->
  proc_exit p = 0%Z ->
  get_symbols self input w
  = symbol_tuples (removelast (split_on newline (proc_stdout p)))
      (add_events w files [EvSpawn (nm_cmd self input)]).
Proof.
  intros Hi Ht Hp Hz. unfold get_symbols.
  rewrite (bind_ok _ _ _ _ _ (sanity_check_present _ _ Hi)).
  rewrite (bind_ok _ _ _ _ _ (base_args_present _ false false _ Ht)).
  rewrite app_nil_r.
  change ((tool_path self :: option_args (config self)) ++ [input])%list
    with (nm_cmd self input).
  now rewrite (bind_ok _ _ _ _ _ (check_output_ok _ _ _ _ Hp Hz)).
Qed.

(** X7. [get_symbols] reads back a listing: when [sil-nm] exits with 0
    and prints one line [kind name] per symbol, each ended by a newline,
    it yields exactly these (kind, name) pairs, in order, after
    launching [sil-nm] once on the input file.  Whatever follows the
    last newline is dropped, so a final line that is not ended by a
    newline is lost, and an empty output yields no symbol. *)
Theorem get_symbols_reads_listing (self : Invoker) (input : string)
    (w : World) (p : ProcOut) (files : FS)
    (syms : list (string * string)) (unterminated : string) :
  accessible input (fs w) = true ->
  accessible (tool_path self) (fs w) = true ->
  popen (nm_cmd self input) (fs w) = Some (p, files) ->
  proc_exit p = 0%Z ->
  Forall well_formed_symbol syms ->
  lacks newline unterminated = true ->
  proc_stdout p = format_symbols syms ++ unterminated ->
  get_symbols self input w
  = (Ok syms, add_events w files [EvSpawn (nm_cmd self input)]).
Proof.
  intros Hi Ht Hp Hz Hsyms Htail Hout.
  rewrite (get_symbols_steps _ _ _ _ _ Hi Ht Hp Hz), Hout.
  rewrite (split_listing _ _ Hsyms), (split_on_last _ _ Htail).
  rewrite removelast_last. now apply symbol_tuples_listing.
Qed.

(** X8. [get_symbols] refuses what it cannot read: a nonzero exit of
    [sil-nm] raises [CalledProcessError] whatever was printed, and a
    line, ended by a newline, that does not split into exactly two
    fields at its spaces raises [AssertionError], also when well-formed
    lines precede or follow it. *)
Theorem get_symbols_rejects (self : Invoker) (input : string) (w : World)
    (p : ProcOut) (files : FS) :
  accessible input (fs w) = true ->
  accessible (tool_path self) (fs w) = true ->
  popen (nm_cmd self input) (fs w) = Some (p, files) ->
  (proc_exit p <> 0%Z ->
   get_symbols self input w
   = (Raise (CalledProcessError (proc_exit p) (nm_cmd self input)),
      add_events w files [EvSpawn (nm_cmd self input)]))
  /\ (proc_exit p = 0%Z ->
      forall syms bad rest,
        Forall well_formed_symbol syms ->
        lacks newline bad = true ->
        length (split_on " "%char bad) <> 2 ->
        proc_stdout p = format_symbols syms ++ bad ++ String newline rest ->
        fst (get_symbols self input w) = Raise AssertionError).
Proof.
  intros Hi Ht Hp. split.
  - intros Hne. unfold get_symbols.
    rewrite (bind_ok _ _ _ _ _ (sanity_check_present _ _ Hi)).
    rewrite (bind_ok _ _ _ _ _ (base_args_present _ false false _ Ht)).
    rewrite app_nil_r.
    change ((tool_path self :: option_args (config self)) ++ [input])%list
      with (nm_cmd self input).
    apply bind_raise. unfold check_output, bind, Popen_communicate.
    apply Z.eqb_neq in Hne. now rewrite Hp, Hne.
  - intros Hz syms bad rest Hsyms Hbadnl Hbad Hout.
    rewrite (get_symbols_steps _ _ _ _ _ Hi Ht Hp Hz), Hout.
    rewrite (split_listing _ _ Hsyms), (split_on_line _ _ _ Hbadnl).
    rewrite removelast_app by discriminate.
    cbn [removelast].
    destruct (split_on newline rest) as [|x xs] eqn:E;
      [now apply split_on_nonempty in E |].
    now rewrite symbol_tuples_malformed.
Qed.

End SymbolListing.

Lemma X7_witness :
  let out := Demo2.listing ++ "F lost" in
  @get_symbols (Demo2.host [("/build/bin/sil-nm", mkProcOut 0 out "")] 0 0)
    Demo2.nm "main" Demo2.w0
  = (Ok [("F", "A"); ("G", "x"); ("F", "B")],
     add_events Demo2.w0 (fs Demo2.w0)
       [EvSpawn ["/build/bin/sil-nm"; "main"]]).
Proof.
  intros out.
  apply (@get_symbols_reads_listing
           (Demo2.host [("/build/bin/sil-nm", mkProcOut 0 out "")] 0 0)
           Demo2.nm "main" Demo2.w0 (mkProcOut 0 out "") (fs Demo2.w0)
           [("F", "A"); ("G", "x"); ("F", "B")] "F lost");
    try reflexivity.
  repeat constructor.
Defined.

Lemma X8_witness :
  fst (@get_symbols
         (Demo2.host [("/build/bin/sil-nm", mkProcOut 2 Demo2.listing "")] 0 0)
         Demo2.nm "main" Demo2.w0)
  = Raise (CalledProcessError 2 ["/build/bin/sil-nm"; "main"])
  /\ fst (@get_symbols
            (Demo2.host
               [("/build/bin/sil-nm",
                 mkProcOut 0
                   (format_symbols [("F", "A")] ++ "F two words"
                    ++ String newline (format_symbols [("F", "B")])) "")] 0 0)
            Demo2.nm "main" Demo2.w0)
     = Raise AssertionError.
Proof.
  split.
  - destruct (@get_symbols_rejects
                (Demo2.host
                   [("/build/bin/sil-nm", mkProcOut 2 Demo2.listing "")] 0 0)
                Demo2.nm "main" Demo2.w0 (mkProcOut 2 Demo2.listing "")
                (fs Demo2.w0) eq_refl eq_refl eq_refl) as [K _].
    rewrite K; [reflexivity | discriminate].
  - match goal with
    | |- fst (@get_symbols ?H _ _ _) = _ =>
        destruct (@get_symbols_rejects H Demo2.nm "main" Demo2.w0
                    (mkProcOut 0
                       (format_symbols [("F", "A")] ++ "F two words"
                        ++ String newline (format_symbols [("F", "B")])) "")
                    (fs Demo2.w0) eq_refl eq_refl eq_refl) as [_ K]
    end.
    apply (K eq_refl [("F", "A")] "F two words"
             (format_symbols [("F", "B")])).
    + repeat constructor.
    + reflexivity.
    + simpl. discriminate.
    + reflexivity.
Defined.

(** ** The description file and the legs of [run_test] *)

Lemma split_funclist_lines (funcs : list string) :
  Forall (fun f => lacks newline f = true) funcs ->
  split_on newline
    (String.concat "" (map (fun f => f ++ String newline "") funcs))
  = (funcs ++ [""])%list.
Proof.
  induction 1 as [|f funcs Hf _ IH]; [reflexivity |].
  cbn [map]. rewrite concat_nosep_cons, append_assoc.
  change (String newline "" ++ String.concat ""
            (map (fun f0 => f0 ++ String newline "") funcs))
    with (String newline (String.concat ""
            (map (fun f0 => f0 ++ String newline "") funcs))).
  rewrite (split_on_line _ _ _ Hf), IH. reflexivity.
Qed.

(** X9. The description file determines the tested list: when no
    function name contains a newline, splitting the file at its newlines
    and dropping the last (empty) piece gives back the list, so two
    lists of such names with the same file content are equal (while
    their hashes can collide). *)
Theorem funclist_file_content_round_trip (funcs : list string) :
  Forall (fun f => lacks newline f = true) funcs ->
  removelast (split_on newline (funclist_file_content funcs)) = funcs
  /\ forall funcs',
       Forall (fun f => lacks newline f = true) funcs' ->
       funclist_file_content funcs = funclist_file_content funcs' ->
       funcs = funcs'.
Proof.
  assert (R : forall l, Forall (fun f => lacks newline f = true) l ->
                        removelast (split_on newline (funclist_file_content l))
                        = l).
  { intros l Hl. unfold funclist_file_content.
    rewrite funclist_file_content_lines. cbn [append].
    rewrite (split_funclist_lines _ Hl). apply removelast_last. }
  intros H. split; [now apply R |].
  intros funcs' H' E. rewrite <- (R funcs H), <- (R funcs' H'). now rewrite E.
Qed.

Section LegFailures.
Context {platform : Platform}.

(** X10. A fatal error in a leg of [run_test] propagates as it is: when
    the test of a nonempty suffix raises, [run_test] raises the same
    exception in the same world and the prefix is not tested; when the
    suffix leg found nothing (or was skipped) and the test of a nonempty
    prefix raises, [run_test] raises that exception. *)
Theorem run_test_propagates_errors (self : ReduceMiscompilingFunctions)
    (prefix suffix : list string) (w : World) (e : exn) :
  (forall w1, suffix <> [] ->
     _test_funclist self suffix w = (Raise e, w1) ->
     run_test self prefix suffix w = (Raise e, w1))
  /\ (forall w1 w2,
        (suffix = [] /\ w1 = w)
        \/ (suffix <> [] /\ _test_funclist self suffix w = (Ok false, w1)) ->
        prefix <> [] ->
        _test_funclist self prefix w1 = (Raise e, w2) ->
        run_test self prefix suffix w = (Raise e, w2)).
Proof.
  split.
  - intros w1 Hne H. unfold run_test, bind, and_then.
    now rewrite (nonempty_length _ Hne), H.
  - intros w1 w2 Hsuffix Hne H.
    assert (Hleg : and_then (0 <? length suffix)%nat
                     (_test_funclist self suffix) w = (Ok false, w1)).
    { destruct Hsuffix as [[-> ->] | [Hs Hf]]; [reflexivity |].
      unfold and_then. now rewrite (nonempty_length _ Hs). }
    unfold run_test. rewrite (bind_ok _ _ _ _ _ Hleg).
    unfold bind, and_then. now rewrite (nonempty_length _ Hne), H.
Qed.

Lemma func_extractor_invoke_ok (self : Invoker)
    (funclist_path out : string) (invert : bool) (w : World) (p : ProcOut)
    (files : FS) :
  accessible (input_file self) (fs w) = true ->
  accessible funclist_path (fs w) = true ->
  accessible (tool_path self) (fs w) = true ->
  popen (func_extractor_cmd self (input_file self) funclist_path out invert)
    (fs w) = Some (p, files) ->
  SILFuncExtractorInvoker_invoke_with_functions self funclist_path out
    invert w
  = (Ok {| exit_code := proc_exit p;
           fingerprint := sha256_hexdigest (digest_input p) |},
     add_events w files
       (br_call_events true
          (func_extractor_cmd self (input_file self) funclist_path out invert)
          p)).
Proof.
  intros Hi Hf Ht Hp.
  unfold SILFuncExtractorInvoker_invoke_with_functions,
    SILFuncExtractorInvoker_invoke, SILFuncExtractorInvoker_cmdline.
  assert (Hcmd :
    (sanity_check_file_exists (input_file self);;
     sanity_check_file_exists funclist_path;;
     base_args0 <- base_args self true false;;
     (let base_args1 :=
        (base_args0 ++ [input_file self; "-o"; out;
                        ("-func-file=" ++ funclist_path)%string])%list in
      let base_args2 :=
        if invert then (base_args1 ++ ["-invert"])%list else base_args1 in
      ret base_args2)) w
    = (Ok (func_extractor_cmd self (input_file self) funclist_path out invert),
       w)).
  { rewrite (bind_ok _ _ _ _ _ (sanity_check_present _ _ Hi)).
    rewrite (bind_ok _ _ _ _ _ (sanity_check_present _ _ Hf)).
    rewrite (bind_ok _ _ _ _ _ (base_args_present _ true false _ Ht)).
    unfold ret, func_extractor_cmd.
    destruct invert; simpl; now rewrite <- !app_assoc. }
  rewrite (bind_ok _ _ _ _ _ Hcmd).
  exact (br_call_run _ _ _ _ _ Hp).
Qed.

Lemma extract_cmd_eq (self : ReduceMiscompilingFunctions)
    (funcs : list string) (invert : bool) :
  extract_cmd self funcs invert
  = func_extractor_cmd (silextract self) (input_file (silextract self))
      (funclist_path self funcs)
      (if invert then outfile_invert_of self funcs else outfile_of self funcs)
      invert.
Proof. reflexivity. Qed.

(** X11. A test of a list, step by step.  [_test_funclist] writes the
    description file and announces it; runs the extractor on the
    reducer's input file and this description file to produce the file
    of stem [<hash>]; runs it again, with [-invert] as last argument, to
    produce the file of stem [<hash>_invert]; and only then calls the
    tester on the two files and stems.  Between the start and the call
    of the tester exactly these two processes are launched, and the exit
    codes of both are ignored. *)
Theorem _test_funclist_runs_extractor_twice
    (self : ReduceMiscompilingFunctions) (funcs : list string) (w : World)
    (p1 p2 : ProcOut) (files1 files2 : FS) :
  let ex := silextract self in
  let path := funclist_path self funcs in
  let files0 := (path, funclist_file_content funcs) :: fs w in
  accessible (input_file ex) files0 = true ->
  accessible (tool_path ex) files0 = true ->
  popen (extract_cmd self funcs false) files0 = Some (p1, files1) ->
  accessible (input_file ex) files1 = true ->
  accessible path files1 = true ->
  accessible (tool_path ex) files1 = true ->
  popen (extract_cmd self funcs true) files1 = Some (p2, files2) ->
  _test_funclist self funcs w
  = tester_call (tester self) (outfile_of self funcs)
      (get_funclist_hash funcs) (outfile_invert_of self funcs)
      (get_funclist_hash funcs ++ "_invert")
      (add_events w files2
         ([EvWrite path (funclist_file_content funcs);
           EvPrint ("Checking to see if the program is misoptimized with func list: "
                    ++ path)]
          ++ br_call_events true (extract_cmd self funcs false) p1
          ++ br_call_events true (extract_cmd self funcs true) p2)).
Proof.
  intros ex path files0 Hi0 Ht0 Hp1 Hi1 Hf1 Ht1 Hp2.
  rewrite _test_funclist_steps. unfold extract_and_test.
  fold path. fold files0.
  match goal with
  | |- bind _ _ ?w0 = _ => set (w0' := w0)
  end.
  assert (Hf0 : accessible path (fs w0') = true).
  { unfold accessible. subst w0' files0. cbn [fs existsb fst].
    now rewrite String.eqb_refl. }
  assert (H1 := func_extractor_invoke_ok ex path (outfile_of self funcs)
                  false w0' p1 files1 Hi0 Hf0 Ht0 Hp1).
  fold ex. rewrite (bind_ok _ _ _ _ _ H1).
  assert (H2 := func_extractor_invoke_ok ex path
                  (outfile_invert_of self funcs) true
                  (add_events w0' files1
                     (br_call_events true (extract_cmd self funcs false) p1))
                  p2 files2 Hi1 Hf1 Ht1 Hp2).
  rewrite (bind_ok _ _ _ _ _ H2).
  f_equal. subst w0'. unfold add_events. cbn [fs events].
  now rewrite <- !app_assoc.
Qed.

(** X12. When the extractor cannot be run, the test of a list stops with
    [RuntimeError] after the description file has been written and
    announced: no process is launched and the tester is not called.
    The reducer's input file is looked for first, then the extractor
    binary. *)
Theorem _test_funclist_without_extractor
    (self : ReduceMiscompilingFunctions) (funcs : list string) (w : World) :
  let ex := silextract self in
  let path := funclist_path self funcs in
  let files0 := (path, funclist_file_content funcs) :: fs w in
  let w0 :=
    add_events w files0
      [EvWrite path (funclist_file_content funcs);
       EvPrint ("Checking to see if the program is misoptimized with func list: "
                ++ path)] in
  (accessible (input_file ex) files0 = false ->
   _test_funclist self funcs w
   = (Raise (RuntimeError ("Error! Could not find file: " ++ input_file ex)),
      w0))
  /\ (accessible (input_file ex) files0 = true ->
      accessible (tool_path ex) files0 = false ->
      _test_funclist self funcs w
      = (Raise (RuntimeError ("Error! " ++ tool_name (inv_class ex)
                              ++ " does not exist at: " ++ tool_path ex)),
         w0)).
Proof.
  intros ex path files0 w0.
  rewrite _test_funclist_steps. unfold extract_and_test.
  fold path. fold files0.
  change {| fs := files0;
            events := (events w
                       ++ [EvWrite path (funclist_file_content funcs);
                           EvPrint ("Checking to see if the program is misoptimized with func list: "
                                    ++ path)])%list |} with w0.
  assert (Hf0 : accessible path (fs w0) = true).
  { unfold accessible. subst w0 files0. cbn [fs add_events existsb fst].
    now rewrite String.eqb_refl. }
  fold ex.
  unfold SILFuncExtractorInvoker_invoke_with_functions,
    SILFuncExtractorInvoker_invoke, SILFuncExtractorInvoker_cmdline.
  split.
  - intros Hi.
    apply bind_raise. apply bind_raise.
    now rewrite (bind_raise _ _ _ _ _ (sanity_check_missing _ w0 Hi)).
  - intros Hi Ht.
    apply bind_raise. apply bind_raise.
    rewrite (bind_ok _ _ _ _ _ (sanity_check_present _ w0 Hi)).
    rewrite (bind_ok _ _ _ _ _ (sanity_check_present _ w0 Hf0)).
    now rewrite (bind_raise _ _ _ _ _ (base_args_missing _ true false w0 Ht)).
Qed.

End LegFailures.

Lemma X9_witness :
  removelast (split_on newline (funclist_file_content ["A"; "B"]))
  = ["A"; "B"].
Proof.
  destruct (funclist_file_content_round_trip ["A"; "B"]) as [K _];
    [repeat constructor | exact K].
Defined.

Lemma X10_witness :
  let H := Demo2.host [] 0 0 in
  let r := Demo.demo_reducer Demo.mentions_C in
  let e := RuntimeError
             "Error! sil-func-extractor does not exist at: /build/bin/sil-func-extractor" in
  fst (@run_test H r ["A"] ["C"] Demo2.bare) = Raise e
  /\ fst (@run_test H r ["A"] [] Demo2.bare) = Raise e.
Proof.
  intros H r e.
  pose (t := fun l => @_test_funclist H r l Demo2.bare).
  split.
  - destruct (@run_test_propagates_errors H r ["A"] ["C"] Demo2.bare e)
      as [K _].
    rewrite (K (snd (t ["C"]))); [reflexivity | discriminate |].
    vm_compute. reflexivity.
  - destruct (@run_test_propagates_errors H r ["A"] [] Demo2.bare e)
      as [_ K].
    rewrite (K Demo2.bare (snd (t ["A"]))); [reflexivity | | discriminate |].
    + left. split; reflexivity.
    + vm_compute. reflexivity.
Defined.

Lemma X11_witness :
  let H := Demo2.host [] 0 1 in
  let r := Demo.demo_reducer Demo.mentions_C in
  fst (@_test_funclist H r ["C"] Demo2.w0) = Ok true
  /\ spawned (events (snd (@_test_funclist H r ["C"] Demo2.w0)))
     = [["/build/bin/sil-func-extractor"; "-emit-sib"; "main"; "-o";
         "/work/main_C.sib"; "-func-file=/work/func_list_C"];
        ["/build/bin/sil-func-extractor"; "-emit-sib"; "main"; "-o";
         "/work/main_C_invert.sib"; "-func-file=/work/func_list_C";
         "-invert"]].
Proof.
  intros H r.
  pose (files0 := (@funclist_path H r ["C"], funclist_file_content ["C"])
                  :: fs Demo2.w0).
  rewrite (@_test_funclist_runs_extractor_twice H r ["C"] Demo2.w0
             (mkProcOut 1 "" "") (mkProcOut 1 "" "") files0 files0
             eq_refl eq_refl eq_refl eq_refl eq_refl eq_refl eq_refl).
  split; reflexivity.
Defined.

Lemma X12_witness :
  let H := Demo2.host [] 0 0 in
  let r := Demo.demo_reducer Demo.mentions_C in
  fst (@_test_funclist H r ["C"] Demo2.bare)
  = Raise (RuntimeError
             "Error! sil-func-extractor does not exist at: /build/bin/sil-func-extractor")
  /\ fst (@_test_funclist H r ["C"] {| fs := []; events := [] |})
     = Raise (RuntimeError "Error! Could not find file: main")
  /\ written (events (snd (@_test_funclist H r ["C"] Demo2.bare)))
     = [("/work/func_list_C", funclist_file_content ["C"])]
  /\ spawned (events (snd (@_test_funclist H r ["C"] Demo2.bare))) = [].
Proof.
  intros H r.
  destruct (@_test_funclist_without_extractor H r ["C"] Demo2.bare)
    as [_ K].
  destruct (@_test_funclist_without_extractor H r ["C"]
              {| fs := []; events := [] |}) as [K0 _].
  rewrite (K eq_refl eq_refl), (K0 eq_refl).
  repeat split.
Defined.

Section DriverEdges.
Context {platform : Platform}.

Lemma SILOptInvoker_cmdline_none (self : Invoker) (f out : string)
    (emit_sib : bool) (w : World) :
  exists e,
    SILOptInvoker_cmdline self f None emit_sib out w = (Raise e, w)
    /\ (accessible (tool_path self) (fs w) = true ->
        accessible f (fs w) = true ->
        e = TypeError "'NoneType' object is not iterable").
Proof.
  unfold SILOptInvoker_cmdline.
  destruct (accessible (tool_path self) (fs w)) eqn:Ht.
  - rewrite (bind_ok _ _ _ _ _ (base_args_present _ _ _ _ Ht)).
    destruct (accessible f (fs w)) eqn:Hi.
    + rewrite (bind_ok _ _ _ _ _ (sanity_check_present _ _ Hi)).
      eexists. split; [reflexivity | auto].
    + rewrite (bind_raise _ _ _ _ _ (sanity_check_missing _ _ Hi)).
      eexists. split; [reflexivity | discriminate].
  - rewrite (bind_raise _ _ _ _ _ (base_args_missing _ _ _ _ Ht)).
    eexists. split; [reflexivity | discriminate].
Qed.

(** X13. Without any [--pass] on the command line the driver fails
    before the base case is run: once the optimizer invoker is set up,
    [invoke_function_bug_reducer] raises, launches no further process
    and prints nothing; with [sil-opt] and the converted input in place
    the exception is the [TypeError] of extending a list by [None]. *)
Theorem driver_requires_pass_list (globals : ModuleGlobals) (args : Args)
    (w w1 : World) (inv : Invoker) :
  SILOptInvoker_init (SILToolInvokerConfig_init args)
    {| swift_build_dir := args_swift_build_dir args |}
    (args_input_file args) (args_extra_args args) w = (Ok inv, w1) ->
  args_pass_list args = None ->
  exists e,
    invoke_function_bug_reducer globals args w = (Raise e, w1)
    /\ (accessible (tool_path inv) (fs w1) = true ->
        accessible (input_file inv) (fs w1) = true ->
        e = TypeError "'NoneType' object is not iterable").
Proof.
  intros Hinit Hnone. unfold invoke_function_bug_reducer.
  rewrite (bind_ok _ _ _ _ _ Hinit), Hnone.
  unfold SILOptInvoker_invoke_with_passlist, SILOptInvoker_invoke.
  destruct (SILOptInvoker_cmdline_none inv (input_file inv)
              (get_suffixed_filename inv "base_case" None) true w1)
    as (e & He & Htype).
  exists e. split; [| exact Htype].
  apply bind_raise. now apply bind_raise.
Qed.

(** X14. With a failing base case the driver, as the module stands,
    cannot reach the reduction: after the extractor invoker is
    constructed, the call that would build the tester reads the name
    [OptimizerTester], and then [pass_list], from the module's globals;
    if the first is unbound [NameError] is raised for it, if only the
    second is unbound [NameError] is raised for that one, and in both
    cases nothing runs after the construction of the extractor invoker
    (no symbol is listed, no list is tested). *)
Theorem driver_unbound_names (globals : ModuleGlobals) (args : Args)
    (w w1 w2 w3 : World) (inv ex : Invoker) (result : RunResult) :
  let tools := {| swift_build_dir := args_swift_build_dir args |} in
  let config := SILToolInvokerConfig_init args in
  SILOptInvoker_init config tools (args_input_file args)
    (args_extra_args args) w = (Ok inv, w1) ->
  SILOptInvoker_invoke_with_passlist inv (args_pass_list args)
    (get_suffixed_filename inv "base_case" None) w1 = (Ok result, w2) ->
  exit_code result <> 0%Z ->
  SILFuncExtractorInvoker_init config tools (args_input_file args) w2
  = (Ok ex, w3) ->
  (global_OptimizerTester globals = None ->
   invoke_function_bug_reducer globals args w
   = (Raise (NameError "OptimizerTester"), w3))
  /\ (global_OptimizerTester globals <> None ->
      global_pass_list globals = None ->
      invoke_function_bug_reducer globals args w
      = (Raise (NameError "pass_list"), w3)).
Proof.
  intros tools config Hinit Hbase Hne Hex.
  unfold invoke_function_bug_reducer. fold tools. fold config.
  rewrite (bind_ok _ _ _ _ _ Hinit), (bind_ok _ _ _ _ _ Hbase).
  apply Z.eqb_neq in Hne. rewrite Hne.
  rewrite (bind_ok _ _ _ _ _ Hex).
  split.
  - intros ->. reflexivity.
  - intros Hsome ->.
    destruct (global_OptimizerTester globals); [reflexivity | congruence].
Qed.

(** X15. [function_bug_reducer] reduces the functions of kind [F], and
    reports success whatever the reduction found.  The list handed to
    the reducer is the names of the listed symbols whose kind is [F], in
    listing order.  When [reduce_list] returns, the line
    [Failed to find miscompiling pass list!] is printed if it returned
    false, and in either case the line [*** Successfully Reduced file!]
    follows, with the tester's result file, the final target list and
    the reproduction command line. *)
Theorem function_bug_reducer_report (input : string)
    (nm sil_opt_invoker ex : Invoker) (pass_list : option (list string))
    (tester : Tester) (w w1 w2 w3 w4 : World)
    (syms : list (string * string)) (reduced : bool)
    (r' : ReduceMiscompilingFunctions) (cmdline : list string)
    (result : string) :
  let functions :=
    map snd (filter (fun s => String.eqb (fst s) "F") syms) in
  get_symbols nm input w = (Ok syms, w1) ->
  reduce_list (ReduceMiscompilingFunctions_init functions ex tester)
    (add_events w1 (fs w1)
       [EvPrint "Base case crashes! Trying to reduce *.sib file"])
  = (Ok (reduced, r'), w2) ->
  tester_cmdline_with_passlist tester pass_list
    (add_events w2 (fs w2)
       (if reduced then []
        else [EvPrint "Failed to find miscompiling pass list!"]))
  = (Ok cmdline, w3) ->
  tester_result tester
    (add_events w3 (fs w3) [EvPrint "*** Successfully Reduced file!"])
  = (Ok result, w4) ->
  function_bug_reducer input nm sil_opt_invoker ex pass_list tester w
  = (Ok tt,
     add_events w4 (fs w4)
       [EvPrint ("*** Final File: " ++ result);
        EvPrint ("*** Final Functions: " ++ join_spaces (target_list r'));
        EvPrint ("*** Repro command line: " ++ join_spaces cmdline)]).
Proof.
  intros functions Hsyms Hred Hcmd Hres.
  unfold function_bug_reducer.
  rewrite (bind_ok _ _ _ _ _ Hsyms). fold functions.
  assert (P : forall line v, print line v = (Ok tt, add_events v (fs v) [EvPrint line]))
    by reflexivity.
  rewrite (bind_ok _ _ _ _ _ (P _ w1)).
  rewrite (bind_ok _ _ _ _ _ Hred). cbn [fst snd].
  assert (Hwhen : when (negb reduced)
                    (print "Failed to find miscompiling pass list!") w2
                  = (Ok tt,
                     add_events w2 (fs w2)
                       (if reduced then []
                        else [EvPrint "Failed to find miscompiling pass list!"]))).
  { destruct reduced; simpl; [| reflexivity].
    unfold ret. now rewrite add_events_nil. }
  rewrite (bind_ok _ _ _ _ _ Hwhen), (bind_ok _ _ _ _ _ Hcmd).
  rewrite (bind_ok _ _ _ _ _ (P _ w3)), (bind_ok _ _ _ _ _ Hres).
  unfold bind. rewrite !P. cbn [fs add_events].
  now rewrite !events_add_add.
Qed.

End DriverEdges.

Section CompilePipeline.
Context {platform : Platform}.

(** X16. The compile pipeline of [SwiftOptCompileInvoker] runs the
    optimizer, then the code generator, then the run script, and stops
    at the first setup step that fails: a nonzero exit of the optimizer
    raises [RuntimeError] before the code generator is constructed; a
    nonzero exit of the code generator raises [RuntimeError] after its
    result has been printed, and the run script is not launched; with
    both at 0 the run script is launched on the object file and its
    result is returned as it is, whatever its exit code. *)
Theorem SwiftOptCompileInvoker_pipeline (self : SwiftOptCompileInvoker)
    (passes : option (list string)) (sib obj : string) (w w1 : World)
    (r1 : RunResult) :
  SILOptInvoker_invoke_with_passlist (sil_opt_invoker self) passes sib w
  = (Ok r1, w1) ->
  (exit_code r1 <> 0%Z ->
   SwiftOptCompileInvoker_invoke_with_passlist self passes sib obj w
   = (Raise (RuntimeError "Optimizer Compile Time Crasher?!"), w1))
  /\ (exit_code r1 = 0%Z ->
      forall gen w2 r2 w3,
        SwiftLLVMGenInvoker_init (soc_config self) (soc_tools self) sib
          (soc_extra_args self) w1 = (Ok gen, w2) ->
        SwiftLLVMGenInvoker_invoke gen obj w2 = (Ok r2, w3) ->
        (exit_code r2 <> 0%Z ->
         SwiftOptCompileInvoker_invoke_with_passlist self passes sib obj w
         = (Raise (RuntimeError "Swift LLVM Gen Compile Time Crasher?!"),
            add_events w3 (fs w3) [EvPrint (repr_dict r2)]))
        /\ (exit_code r2 = 0%Z ->
            forall p files,
              popen [run_script self; obj] (fs w3) = Some (p, files) ->
              SwiftOptCompileInvoker_invoke_with_passlist self passes sib
                obj w
              = (Ok {| exit_code := proc_exit p;
                       fingerprint := sha256_hexdigest (digest_input p) |},
                 add_events w3 files
                   (EvPrint (repr_dict r2)
                    :: br_call_events true [run_script self; obj] p)))).
Proof.
  intros Hopt. unfold SwiftOptCompileInvoker_invoke_with_passlist.
  rewrite (bind_ok _ _ _ _ _ Hopt). split.
  - intros Hne. apply Z.eqb_neq in Hne. now rewrite Hne.
  - intros Hz gen w2 r2 w3 Hgen Hinv.
    apply Z.eqb_eq in Hz. rewrite Hz. cbn [negb].
    rewrite (bind_ok _ _ _ _ _ Hgen), (bind_ok _ _ _ _ _ Hinv).
    assert (P : print (repr_dict r2) w3
                = (Ok tt, add_events w3 (fs w3) [EvPrint (repr_dict r2)]))
      by reflexivity.
    rewrite (bind_ok _ _ _ _ _ P). split.
    + intros Hne. apply Z.eqb_neq in Hne. now rewrite Hne.
    + intros Hz2 p files Hp. apply Z.eqb_eq in Hz2. rewrite Hz2. cbn [negb].
      unfold br_call_default, DRY_RUN, ECHO_CALLS.
      rewrite (br_call_run [run_script self; obj] true
                 (add_events w3 (fs w3) [EvPrint (repr_dict r2)]) p files Hp).
      now rewrite events_add_add.
Qed.

(** X17. [SwiftLLVMGenInvoker.cmdline_with_passlist] never yields a
    command line for a pass list: the list is handed to [_cmdline] in
    the place of the output file name, where the assertion that it is a
    string fails.  With the tool and the input file in place the call
    raises [AssertionError]; in no case does it change the world. *)
Theorem SwiftLLVMGenInvoker_cmdline_with_passlist_fails (self : Invoker)
    (passes : list string) (w : World) :
  (forall cmdline,
     fst (SwiftLLVMGenInvoker_cmdline_with_passlist self (Some passes) w)
     <> Ok cmdline)
  /\ snd (SwiftLLVMGenInvoker_cmdline_with_passlist self (Some passes) w) = w
  /\ (accessible (tool_path self) (fs w) = true ->
      accessible (input_file self) (fs w) = true ->
      fst (SwiftLLVMGenInvoker_cmdline_with_passlist self (Some passes) w)
      = Raise AssertionError).
Proof.
  unfold SwiftLLVMGenInvoker_cmdline_with_passlist.
  destruct (accessible (tool_path self) (fs w)) eqn:Ht.
  - rewrite (bind_ok _ _ _ _ _ (base_args_present _ _ _ _ Ht)).
    destruct (accessible (input_file self) (fs w)) eqn:Hi.
    + rewrite (bind_ok _ _ _ _ _ (sanity_check_present _ _ Hi)).
      repeat split; intros; discriminate.
    + rewrite (bind_raise _ _ _ _ _ (sanity_check_missing _ _ Hi)).
      repeat split; intros; discriminate.
  - rewrite (bind_raise _ _ _ _ _ (base_args_missing _ _ _ _ Ht)).
    repeat split; intros; discriminate.
Qed.

End CompilePipeline.

Lemma X13_witness :
  let args := {| args_swift_build_dir := "/build";
                 args_input_file := "main";
                 args_module_cache := None;
                 args_sdk := None;
                 args_target := None;
                 args_resource_dir := None;
                 args_work_dir := "/work";
                 args_module_name := None;
                 args_pass_list := None;
                 args_extra_args := None |} in
  fst (@invoke_function_bug_reducer (Demo.host 0 0) Demo.no_globals args
         Demo.w0)
  = Raise (TypeError "'NoneType' object is not iterable").
Proof.
  intros args.
  pose (init := @SILOptInvoker_init (Demo.host 0 0)
                  (@SILToolInvokerConfig_init (Demo.host 0 0) args)
                  {| swift_build_dir := "/build" |} "main" None Demo.w0).
  pose (inv := @opt_invoker_object (Demo.host 0 0) Demo.demo_config
                 {| swift_build_dir := "/build" |} "main" None).
  assert (I0 : init = (Ok inv, snd init)) by (vm_compute; reflexivity).
  destruct (@driver_requires_pass_list (Demo.host 0 0) Demo.no_globals args
              Demo.w0 (snd init) inv I0 eq_refl) as (e & He & Htype).
  rewrite He. cbn [fst]. f_equal. apply Htype; vm_compute; reflexivity.
Defined.

Lemma X14_witness :
  let bound :=
    {| global_OptimizerTester :=
         Some (fun _ _ => ret (Demo.demo_tester (fun _ => false)));
       global_pass_list := None |} in
  fst (@invoke_function_bug_reducer (Demo.host 1 0) Demo.no_globals
         Demo.demo_args Demo.w0) = Raise (NameError "OptimizerTester")
  /\ fst (@invoke_function_bug_reducer (Demo.host 1 0) bound
            Demo.demo_args Demo.w0) = Raise (NameError "pass_list")
  /\ spawned (events (snd (@invoke_function_bug_reducer (Demo.host 1 0)
                             Demo.no_globals Demo.demo_args Demo.w0)))
     = [["mkdir"; "-p"; "/work"];
        ["/build/bin/sil-opt"; "-emit-sib"; "main"; "-o";
         "/work/main_initial.sib"];
        ["/build/bin/sil-opt"; "-emit-sib"; "/work/main_initial.sib"; "-o";
         "/work/main_base_case.sib"; "-simplify-cfg"];
        ["mkdir"; "-p"; "/work"]].
Proof.
  intros bound.
  pose (H := Demo.host 1 0).
  pose (cfg := @SILToolInvokerConfig_init H Demo.demo_args).
  pose (tl := {| swift_build_dir := "/build" |}).
  pose (init := @SILOptInvoker_init H cfg tl "main" None Demo.w0).
  pose (inv := @opt_invoker_object H Demo.demo_config tl "main" None).
  pose (base := @SILOptInvoker_invoke_with_passlist H inv
                  (Some ["-simplify-cfg"])
                  (get_suffixed_filename inv "base_case" None) (snd init)).
  pose (exi := @SILFuncExtractorInvoker_init H cfg tl "main" (snd base)).
  assert (I0 : init = (Ok inv, snd init)) by (vm_compute; reflexivity).
  assert (B0 : base = (Ok (mkRunResult 1 "1"), snd base))
    by (vm_compute; reflexivity).
  assert (E0 : exi = (Ok Demo.demo_silextract, snd exi))
    by (vm_compute; reflexivity).
  assert (Hne : exit_code (mkRunResult 1 "1") <> 0%Z) by discriminate.
  destruct (@driver_unbound_names H Demo.no_globals Demo.demo_args
              Demo.w0 _ _ _ _ _ _ I0 B0 Hne E0) as [K1 _].
  destruct (@driver_unbound_names H bound Demo.demo_args
              Demo.w0 _ _ _ _ _ _ I0 B0 Hne E0) as [_ K2].
  fold H. rewrite (K1 eq_refl), K2; [| discriminate | reflexivity].
  refine (conj _ (conj _ _));
    [reflexivity | reflexivity | vm_compute; reflexivity].
Defined.

Lemma X15_witness :
  let H := Demo2.host [("/build/bin/sil-nm", mkProcOut 0 Demo2.listing "")]
             0 0 in
  let run := @function_bug_reducer H "main" Demo2.nm Demo2.opt
               Demo.demo_silextract (Some ["-p"])
               (Demo.demo_tester (fun _ => false)) Demo2.w0 in
  fst run = Ok tt
  /\ filter (fun e => match e with
                      | EvPrint line =>
                          (String.eqb line "Failed to find miscompiling pass list!"
                           || String.eqb line "*** Successfully Reduced file!"
                           || String.eqb line "*** Final Functions: A B")%bool
                      | _ => false
                      end) (events (snd run))
     = [EvPrint "Failed to find miscompiling pass list!";
        EvPrint "*** Successfully Reduced file!";
        EvPrint "*** Final Functions: A B"].
Proof.
  intros H run.
  pose (t := Demo.demo_tester (fun _ => false)).
  pose (g := @get_symbols H Demo2.nm "main" Demo2.w0).
  pose (r := ReduceMiscompilingFunctions_init ["A"; "B"]
               Demo.demo_silextract t).
  pose (red := @reduce_list H r
                 (add_events (snd g) (fs (snd g))
                    [EvPrint "Base case crashes! Trying to reduce *.sib file"])).
  pose (w3 := add_events (snd red) (fs (snd red))
                [EvPrint "Failed to find miscompiling pass list!"]).
  pose (w4 := add_events w3 (fs w3) [EvPrint "*** Successfully Reduced file!"]).
  assert (G : g = (Ok [("F", "A"); ("G", "x"); ("F", "B")], snd g))
    by (vm_compute; reflexivity).
  assert (R : red = (Ok (false, r), snd red)) by (vm_compute; reflexivity).
  assert (E := @function_bug_reducer_report H "main" Demo2.nm Demo2.opt
                 Demo.demo_silextract (Some ["-p"]) t Demo2.w0 (snd g)
                 (snd red) w3 w4 _ false r [] "" G R eq_refl eq_refl).
  unfold run. fold t. rewrite E. split; [reflexivity |].
  vm_compute. reflexivity.
Defined.

Lemma X16_witness :
  let H := Demo2.host [("/run.sh", mkProcOut 3 "out" "")] 1 0 in
  let self := {| soc_config := Demo.demo_config;
                 soc_tools := Demo2.build_tools;
                 soc_extra_args := None;
                 run_script := "/run.sh";
                 sil_opt_invoker := Demo2.opt |} in
  fst (@SwiftOptCompileInvoker_invoke_with_passlist H self
         (Some ["-simplify-cfg"]) "/work/x.sib" "/work/x.o" Demo2.w0)
  = Raise (RuntimeError "Optimizer Compile Time Crasher?!")
  /\ exit_code_of_res
       (fst (@SwiftOptCompileInvoker_invoke_with_passlist H self
               (Some ["-p"]) "/work/x.sib" "/work/x.o" Demo2.w0))
     = Some 3%Z
  /\ fst (@SwiftOptCompileInvoker_invoke_with_passlist
            (Demo2.host [("/build/bin/sil-llvm-gen", mkProcOut 1 "" "")] 0 0)
            self (Some ["-p"]) "/work/x.sib" "/work/x.o" Demo2.w0)
     = Raise (RuntimeError "Swift LLVM Gen Compile Time Crasher?!").
Proof.
  intros H self.
  pose (H' := Demo2.host [("/build/bin/sil-llvm-gen", mkProcOut 1 "" "")] 0 0).
  pose (o := fun P ps => @SILOptInvoker_invoke_with_passlist P Demo2.opt
                           (Some ps) "/work/x.sib" Demo2.w0).
  pose (gi := fun P ps => @SwiftLLVMGenInvoker_init P Demo.demo_config
                            Demo2.build_tools "/work/x.sib" None
                            (snd (o P ps))).
  pose (gen := @constant_input_object H SwiftLLVMGenInvoker Demo.demo_config
                 Demo2.build_tools "/work/x.sib" None).
  pose (gv := fun P ps => @SwiftLLVMGenInvoker_invoke P gen "/work/x.o"
                            (snd (gi P ps))).
  refine (conj _ (conj _ _)).
  - assert (O : o H ["-simplify-cfg"]
                = (Ok (mkRunResult 1 "1"), snd (o H ["-simplify-cfg"])))
      by (vm_compute; reflexivity).
    destruct (@SwiftOptCompileInvoker_pipeline H self _ _ "/work/x.o" _ _ _ O)
      as [K _].
    rewrite K; [reflexivity | discriminate].
  - assert (O : o H ["-p"] = (Ok (mkRunResult 0 "0"), snd (o H ["-p"])))
      by (vm_compute; reflexivity).
    assert (GI : gi H ["-p"] = (Ok gen, snd (gi H ["-p"])))
      by (vm_compute; reflexivity).
    assert (GV : gv H ["-p"] = (Ok (mkRunResult 0 "0"), snd (gv H ["-p"])))
      by (vm_compute; reflexivity).
    destruct (@SwiftOptCompileInvoker_pipeline H self _ _ "/work/x.o" _ _ _ O)
      as [_ K].
    destruct (K eq_refl _ _ _ _ GI GV) as [_ K2].
    rewrite (K2 eq_refl (mkProcOut 3 "out" "") (fs (snd (gv H ["-p"])))
               eq_refl).
    reflexivity.
  - assert (O : o H' ["-p"] = (Ok (mkRunResult 0 "0"), snd (o H' ["-p"])))
      by (vm_compute; reflexivity).
    assert (GI : gi H' ["-p"] = (Ok gen, snd (gi H' ["-p"])))
      by (vm_compute; reflexivity).
    assert (GV : gv H' ["-p"] = (Ok (mkRunResult 1 "1"), snd (gv H' ["-p"])))
      by (vm_compute; reflexivity).
    destruct (@SwiftOptCompileInvoker_pipeline H' self _ _ "/work/x.o" _ _ _ O)
      as [_ K].
    destruct (K eq_refl _ _ _ _ GI GV) as [K1 _].
    fold H'. rewrite K1; [reflexivity | discriminate].
Defined.

Lemma X17_witness :
  fst (SwiftLLVMGenInvoker_cmdline_with_passlist Demo2.llvm_gen
         (Some ["-p"]) Demo2.w0)
  = Raise AssertionError.
Proof.
  destruct (SwiftLLVMGenInvoker_cmdline_with_passlist_fails Demo2.llvm_gen
              ["-p"] Demo2.w0) as (_ & _ & K).
  exact (K eq_refl eq_refl).
Defined.

(** ** Scratch names, the extractor's command line, echoing *)

Section ScratchNames.
Context {platform : Platform}.

(** X18. Names in the work directory do not collide: for one invoker,
    different suffixes give different file names, so the converted input
    ([initial]) is never overwritten by the base case ([base_case]), and
    the two files extracted for one candidate list, of stems [<hash>]
    and [<hash>_invert], are always different files. *)
Theorem scratch_names_distinct (self : Invoker) (x y : string)
    (ext : option string) :
  (x <> y ->
   get_suffixed_filename self x ext <> get_suffixed_filename self y ext)
  /\ get_suffixed_filename self "initial" None
     <> get_suffixed_filename self "base_case" None
  /\ forall (r : ReduceMiscompilingFunctions) (funcs : list string),
       outfile_of r funcs <> outfile_invert_of r funcs.
Proof.
  refine (conj _ (conj _ _)).
  - intros Hne E. now apply get_suffixed_filename_inj in E.
  - intros E. apply get_suffixed_filename_inj in E. discriminate.
  - intros r funcs E. unfold outfile_of, outfile_invert_of in E.
    apply get_suffixed_filename_inj in E. cbn [fst snd get_output_filename_stems] in E.
    rewrite <- (append_nil_r (get_funclist_hash funcs)) in E at 1.
    apply append_cancel_l in E. discriminate.
Qed.

End ScratchNames.

Lemma X18_witness :
  get_suffixed_filename Demo2.opt "A" None
  <> get_suffixed_filename Demo2.opt "B" None.
Proof.
  destruct (@scratch_names_distinct (Demo.host 0 0) Demo2.opt "A" "B" None)
    as [K _].
  apply K. discriminate.
Defined.

(** X19. The command line of the extractor is built without any effect
    on the world, and its checks come in the order input file,
    description file, tool: a missing input file is reported even when
    the description file and the tool are missing too, and a missing
    description file before a missing tool.  With all three in place the
    command line is the tool, the configured options, [-emit-sib] when
    asked for, the input, [-o] and the output, [-func-file=] with the
    description file, and [-invert] last when inverting. *)
Theorem SILFuncExtractorInvoker_cmdline_layout (self : Invoker)
    (input funclist_path : string) (emit_sib : bool) (out : string)
    (invert : bool) (w : World) :
  let run := SILFuncExtractorInvoker_cmdline self input funclist_path
               emit_sib out invert w in
  snd run = w
  /\ (accessible input (fs w) = false ->
      fst run = Raise (RuntimeError ("Error! Could not find file: " ++ input)))
  /\ (accessible input (fs w) = true ->
      accessible funclist_path (fs w) = false ->
      fst run = Raise (RuntimeError ("Error! Could not find file: "
                                     ++ funclist_path)))
  /\ (accessible input (fs w) = true ->
      accessible funclist_path (fs w) = true ->
      accessible (tool_path self) (fs w) = false ->
      fst run = Raise (RuntimeError ("Error! " ++ tool_name (inv_class self)
                                     ++ " does not exist at: "
                                     ++ tool_path self)))
  /\ (accessible input (fs w) = true ->
      accessible funclist_path (fs w) = true ->
      accessible (tool_path self) (fs w) = true ->
      fst run
      = Ok (tool_path self :: option_args (config self)
            ++ (if emit_sib then ["-emit-sib"] else [])
            ++ [input; "-o"; out; ("-func-file=" ++ funclist_path)%string]
            ++ (if invert then ["-invert"] else []))%list).
Proof.
  intros run. subst run. unfold SILFuncExtractorInvoker_cmdline.
  destruct (accessible input (fs w)) eqn:Hi.
  - rewrite (bind_ok _ _ _ _ _ (sanity_check_present _ _ Hi)).
    destruct (accessible funclist_path (fs w)) eqn:Hf.
    + rewrite (bind_ok _ _ _ _ _ (sanity_check_present _ _ Hf)).
      destruct (accessible (tool_path self) (fs w)) eqn:Ht.
      * rewrite (bind_ok _ _ _ _ _ (base_args_present _ emit_sib false _ Ht)).
        unfold ret. cbn [fst snd].
        repeat split; intros; try discriminate.
        destruct invert, emit_sib; simpl; now rewrite <- !app_assoc.
      * rewrite (bind_raise _ _ _ _ _ (base_args_missing _ emit_sib false _ Ht)).
        repeat split; intros; congruence.
    + rewrite (bind_raise _ _ _ _ _ (sanity_check_missing _ _ Hf)).
      repeat split; intros; congruence.
  - rewrite (bind_raise _ _ _ _ _ (sanity_check_missing _ _ Hi)).
    repeat split; intros; congruence.
Qed.

Lemma X19_witness :
  fst (SILFuncExtractorInvoker_cmdline Demo.demo_silextract "absent" "list"
         true "out" true {| fs := []; events := [] |})
  = Raise (RuntimeError "Error! Could not find file: absent")
  /\ fst (SILFuncExtractorInvoker_cmdline Demo.demo_silextract "main" "list"
            true "out" true Demo2.bare)
     = Raise (RuntimeError "Error! Could not find file: list")
  /\ fst (SILFuncExtractorInvoker_cmdline Demo.demo_silextract "main" "main"
            true "out" true Demo2.bare)
     = Raise (RuntimeError
                "Error! sil-func-extractor does not exist at: /build/bin/sil-func-extractor")
  /\ fst (SILFuncExtractorInvoker_cmdline Demo.demo_silextract "main" "main"
            true "out" true Demo2.w0)
     = Ok ["/build/bin/sil-func-extractor"; "-emit-sib"; "main"; "-o"; "out";
           "-func-file=main"; "-invert"].
Proof.
  refine (conj _ (conj _ (conj _ _))).
  - destruct (SILFuncExtractorInvoker_cmdline_layout Demo.demo_silextract
                "absent" "list" true "out" true {| fs := []; events := [] |})
      as (_ & K & _).
    exact (K eq_refl).
  - destruct (SILFuncExtractorInvoker_cmdline_layout Demo.demo_silextract
                "main" "list" true "out" true Demo2.bare)
      as (_ & _ & K & _).
    exact (K eq_refl eq_refl).
  - destruct (SILFuncExtractorInvoker_cmdline_layout Demo.demo_silextract
                "main" "main" true "out" true Demo2.bare)
      as (_ & _ & _ & K & _).
    exact (K eq_refl eq_refl eq_refl).
  - destruct (SILFuncExtractorInvoker_cmdline_layout Demo.demo_silextract
                "main" "main" true "out" true Demo2.w0)
      as (_ & _ & _ & _ & K).
    exact (K eq_refl eq_refl eq_refl).
Defined.

Section Echo.
Context {platform : Platform}.

(** X20. Echoing is only output: the two echo flags of
    [call_fingerprint] change neither the result it returns (or the
    error it raises), nor the process it launches, nor the file system
    it leaves; asking for less echo only removes printed lines. *)
Theorem call_fingerprint_echo_is_output_only (args : list string)
    (es eo es' eo' : bool) (w : World) :
  fst (call_fingerprint args es eo w) = fst (call_fingerprint args es' eo' w)
  /\ fs (snd (call_fingerprint args es eo w))
     = fs (snd (call_fingerprint args es' eo' w))
  /\ spawned (events (snd (call_fingerprint args es eo w)))
     = spawned (events (snd (call_fingerprint args es' eo' w)))
  /\ written (events (snd (call_fingerprint args es eo w)))
     = written (events w).
Proof.
  assert (W := no_write_call_fingerprint args es eo w).
  unfold call_fingerprint, bind, Popen_communicate, when, print, emit, ret
    in *.
  destruct (popen args (fs w)) as [[p files]|].
  - destruct es, eo, es', eo'; cbn [fst snd fs events] in *;
      repeat split; try exact W;
      repeat rewrite spawned_app; simpl; repeat rewrite app_nil_r;
      reflexivity.
  - repeat split.
Qed.

End Echo.
